(** * Keyboard chatter blocker: the classification function, verified

    The repository holds four variants of one classifier:
    - [Baseline]: KbChatterBlocker.cpp, two thresholds and a repeat mode;
    - [Full]: the logging variant, which adds the intentional double-tap test;
    - [Adaptive] and [PatternBased]: the two Python classes.
    The raw-input C++ variant (one threshold, presses only, keys looked up
    with [find]) takes no part in the statements below.

    The OS glue (hook installation, message loop, mutex, log file) is not
    modelled.  The one effect the classifier has on its environment is the
    read of the clock: [GetCurrentTimeMs ()] and [time.time () * 1000] are
    the argument [currentTime] of the embedded functions. *)

From Stdlib Require Import ZArith List Bool Lia.
From Stdlib Require Import Floats.
From stdpp Require Import gmap strings list fin_maps.

Local Open Scope Z_scope.

(** ** Machine integers

    [long long] is 64 bits and [int] is 32 bits on the target.  Arithmetic on
    them is written with its two's-complement wrap-around. *)

Module Int64.
Definition modulus : Z := 2 ^ 64.
Definition min_signed : Z := - 2 ^ 63.
Definition max_signed : Z := 2 ^ 63 - 1.
Definition wrap (z : Z) : Z := (z + 2 ^ 63) mod modulus - 2 ^ 63.
Definition sub (a b : Z) : Z := wrap (a - b).
End Int64.

Module Int32.
Definition modulus : Z := 2 ^ 32.
Definition min_signed : Z := - 2 ^ 31.
Definition max_signed : Z := 2 ^ 31 - 1.
Definition wrap (z : Z) : Z := (z + 2 ^ 31) mod modulus - 2 ^ 31.
Definition incr (a : Z) : Z := wrap (a + 1).
End Int32.

(** A reading of the steady clock in milliseconds: a non-negative
    [long long]. *)
Definition clock_reading (t : Z) : Prop := 0 <= t <= Int64.max_signed.

(** ** The per-key record of the two C++ variants *)

Record KeyState : Type := mkKeyState {
  lastPressTime : Z;      (* long long, 0 = no press recorded *)
  lastReleaseTime : Z;    (* long long *)
  inRepeatMode : bool;
  blockedCount : Z        (* int *)
}.

(** The member initialisers of [struct KeyState]: what [keyStates[vkCode]]
    creates for a key that is not in the table. *)
Definition KeyState_default : KeyState :=
  {| lastPressTime := 0; lastReleaseTime := 0;
     inRepeatMode := false; blockedCount := 0 |}.

Definition set_lastPressTime (t : Z) (s : KeyState) : KeyState :=
  {| lastPressTime := t; lastReleaseTime := lastReleaseTime s;
     inRepeatMode := inRepeatMode s; blockedCount := blockedCount s |}.

Definition set_lastReleaseTime (t : Z) (s : KeyState) : KeyState :=
  {| lastPressTime := lastPressTime s; lastReleaseTime := t;
     inRepeatMode := inRepeatMode s; blockedCount := blockedCount s |}.

Definition set_inRepeatMode (b : bool) (s : KeyState) : KeyState :=
  {| lastPressTime := lastPressTime s; lastReleaseTime := lastReleaseTime s;
     inRepeatMode := b; blockedCount := blockedCount s |}.

(** [state.blockedCount++] *)
Definition incr_blockedCount (s : KeyState) : KeyState :=
  {| lastPressTime := lastPressTime s; lastReleaseTime := lastReleaseTime s;
     inRepeatMode := inRepeatMode s;
     blockedCount := Int32.incr (blockedCount s) |}.

(** [std::unordered_map<DWORD, KeyState> keyStates]. *)
Abbreviation KeyStates := (gmap N KeyState).

(** [keyStates[vkCode]]: the entry of the key, the default record when the
    key is new. *)
Definition entry (keyStates : KeyStates) (vkCode : N) : KeyState :=
  default KeyState_default (keyStates !! vkCode).

(** An event as the hook delivers it, with the clock reading taken inside
    [ShouldBlockKey]. *)
Record Event : Type := mkEvent {
  ev_vkCode : N;
  ev_isKeyDown : bool;
  ev_time : Z
}.

(** ** KbChatterBlocker.cpp *)

Module Baseline.

Definition CHATTER_THRESHOLD_MS : Z := 85.
Definition REPEAT_CHATTER_THRESHOLD_MS : Z := 30.
Definition REPEAT_TRANSITION_DELAY_MS : Z := 150.

(** The body of [ShouldBlockKey] on the referenced record [state]. *)
Definition classify (state : KeyState) (isKeyDown : bool) (currentTime : Z)
  : KeyState * bool :=
  if isKeyDown then
    if lastPressTime state =? 0 then
      (set_lastPressTime currentTime state, false)
    else
      let timeSincePress := Int64.sub currentTime (lastPressTime state) in
      let '(threshold, state) :=
        if inRepeatMode state then (REPEAT_CHATTER_THRESHOLD_MS, state)
        else (CHATTER_THRESHOLD_MS,
              if timeSincePress >? REPEAT_TRANSITION_DELAY_MS
              then set_inRepeatMode true state else state) in
      if timeSincePress <? threshold then (incr_blockedCount state, true)
      else (set_lastPressTime currentTime state, false)
  else
    (set_inRepeatMode false (set_lastReleaseTime currentTime state), false).

Definition ShouldBlockKey (keyStates : KeyStates) (vkCode : N)
    (isKeyDown : bool) (currentTime : Z) : KeyStates * bool :=
  let '(state, block) := classify (entry keyStates vkCode) isKeyDown currentTime in
  (<[vkCode := state]> keyStates, block).

End Baseline.

(** ** The variant with the intentional double-tap test *)

Module Full.

Definition INITIAL_CHATTER_THRESHOLD_MS : Z := 81.
Definition REPEAT_CHATTER_THRESHOLD_MS : Z := 15.
Definition REPEAT_TRANSITION_DELAY_MS : Z := 200.
Definition MIN_RELEASE_DURATION_MS : Z := 20.

Definition classify (state : KeyState) (isKeyDown : bool) (currentTime : Z)
  : KeyState * bool :=
  if isKeyDown then
    if lastPressTime state =? 0 then
      (set_lastPressTime currentTime state, false)
    else
      let timeSincePress := Int64.sub currentTime (lastPressTime state) in
      let timeSinceRelease := Int64.sub currentTime (lastReleaseTime state) in
      if (lastReleaseTime state >? lastPressTime state)
         && (timeSinceRelease >=? MIN_RELEASE_DURATION_MS) then
        (set_inRepeatMode false (set_lastPressTime currentTime state), false)
      else
        let '(threshold, state) :=
          if inRepeatMode state then (REPEAT_CHATTER_THRESHOLD_MS, state)
          else (INITIAL_CHATTER_THRESHOLD_MS,
                if timeSincePress >? REPEAT_TRANSITION_DELAY_MS
                then set_inRepeatMode true state else state) in
        if timeSincePress <? threshold then (incr_blockedCount state, true)
        else (set_lastPressTime currentTime state, false)
  else
    (set_inRepeatMode false (set_lastReleaseTime currentTime state), false).

Definition ShouldBlockKey (keyStates : KeyStates) (vkCode : N)
    (isKeyDown : bool) (currentTime : Z) : KeyStates * bool :=
  let '(state, block) := classify (entry keyStates vkCode) isKeyDown currentTime in
  (<[vkCode := state]> keyStates, block).

End Full.

(** The calls of [ShouldBlockKey] for a sequence of events: the table is
    threaded through, the verdicts are collected in order. *)
Fixpoint run (ShouldBlockKey : KeyStates -> N -> bool -> Z -> KeyStates * bool)
    (keyStates : KeyStates) (events : list Event) : KeyStates * list bool :=
  match events with
  | [] => (keyStates, [])
  | e :: rest =>
      let '(keyStates1, block) :=
        ShouldBlockKey keyStates (ev_vkCode e) (ev_isKeyDown e) (ev_time e) in
      let '(keyStates2, blocks) := run ShouldBlockKey keyStates1 rest in
      (keyStates2, block :: blocks)
  end.

(** ** The Python classes

    Python's [float] is IEEE binary64, that is Rocq's primitive [float].
    An [int] constant meeting a float converts exactly. *)

Definition float_of_int (z : Z) : float := PrimFloat.of_uint63 (Uint63.of_Z z).

(** [d[k]] on a [defaultdict]: the value, and the dictionary in which a
    missing key has been given the default. *)
Definition dd_get {V : Type} (dflt : V) (d : gmap string V) (k : string)
  : V * gmap string V :=
  let v := default dflt (d !! k) in (v, <[k := v]> d).

Module Adaptive.

Definition INITIAL_CHATTER_THRESHOLD_MS : Z := 50.
Definition REPEAT_CHATTER_THRESHOLD_MS : Z := 15.
Definition REPEAT_TRANSITION_DELAY_MS : Z := 200.

Record Blocker : Type := mkBlocker {
  last_press_time : gmap string float;
  last_release_time : gmap string float;
  in_repeat_mode : gmap string bool;
  blocked_count : gmap string Z
}.

(** [__init__] *)
Definition init : Blocker :=
  {| last_press_time := ∅; last_release_time := ∅;
     in_repeat_mode := ∅; blocked_count := ∅ |}.

(** [should_block_key]; [key_str] is [str(key)] and [current_time] is
    [time.time() * 1000].  The diagnostic [print] is left out. *)
Definition should_block_key (self : Blocker) (key_str : string)
    (current_time : float) : Blocker * bool :=
  let '(last_press, lpt) := dd_get 0%float (last_press_time self) key_str in
  let '(last_release, lrt) := dd_get 0%float (last_release_time self) key_str in
  let time_since_press := PrimFloat.sub current_time last_press in
  let '(rep, irm) := dd_get false (in_repeat_mode self) key_str in
  let '(threshold, irm) :=
    if rep then (REPEAT_CHATTER_THRESHOLD_MS, irm)
    else (INITIAL_CHATTER_THRESHOLD_MS,
          if PrimFloat.ltb (float_of_int REPEAT_TRANSITION_DELAY_MS) time_since_press
          then <[key_str := true]> irm else irm) in
  if PrimFloat.ltb time_since_press (float_of_int threshold) then
    let '(n, bc) := dd_get 0 (blocked_count self) key_str in
    ({| last_press_time := lpt; last_release_time := lrt;
        in_repeat_mode := irm; blocked_count := <[key_str := n + 1]> bc |},
     true)
  else
    ({| last_press_time := <[key_str := current_time]> lpt;
        last_release_time := lrt;
        in_repeat_mode := irm; blocked_count := blocked_count self |},
     false).

(** [on_release]; [is_esc] is the test [key == keyboard.Key.esc].  The
    result is what the method hands back to the listener: [Some false]
    stops the listener, [None] is Python's [None]. *)
Definition on_release (self : Blocker) (key_str : string) (is_esc : bool)
    (current_time : float) : Blocker * option bool :=
  ({| last_press_time := last_press_time self;
      last_release_time := <[key_str := current_time]> (last_release_time self);
      in_repeat_mode := <[key_str := false]> (in_repeat_mode self);
      blocked_count := blocked_count self |},
   if is_esc then Some false else None).

End Adaptive.

(** [l[i]] on a Python list: negative indices count from the end, an index
    out of range raises [IndexError] ([None]). *)
Definition py_index {A : Type} (l : list A) (i : Z) : option A :=
  let n := Z.of_nat (length l) in
  let j := if i <? 0 then i + n else i in
  if (0 <=? j) && (j <? n) then l !! Z.to_nat j else None.

(** [sum(l)]: the additions start from the integer 0, left to right.  (The
    compensated summation of recent CPython gives the same value on the
    two-element lists this is applied to.) *)
Definition py_sum (l : list float) : float :=
  fold_left PrimFloat.add l (float_of_int 0).

Module PatternBased.

Record Blocker : Type := mkBlocker {
  press_history : gmap string (list float);
  last_release_time : gmap string float;
  blocked_count : gmap string Z;
  history_size : Z
}.

(** [__init__] *)
Definition init : Blocker :=
  {| press_history := ∅; last_release_time := ∅; blocked_count := ∅;
     history_size := 5 |}.

Definition count_block (self : Blocker) (key_str : string)
    (ph : gmap string (list float)) : Blocker :=
  let '(n, bc) := dd_get 0 (blocked_count self) key_str in
  {| press_history := ph; last_release_time := last_release_time self;
     blocked_count := <[key_str := n + 1]> bc;
     history_size := history_size self |}.

(** [history.append(current_time)] and the trimming that follows it, on
    the list object the dictionary holds for the key. *)
Definition update_history (self : Blocker) (key_str : string)
    (history : list float) (current_time : float)
    (ph : gmap string (list float)) : Blocker :=
  let history := history ++ [current_time] in
  let history :=
    if Z.of_nat (length history) >? history_size self
    then drop 1 history else history in
  {| press_history := <[key_str := history]> ph;
     last_release_time := last_release_time self;
     blocked_count := blocked_count self;
     history_size := history_size self |}.

(** [should_block_key].  [None] stands for an exception ([IndexError],
    [ZeroDivisionError]); the diagnostic [print]s are left out. *)
Definition should_block_key (self : Blocker) (key_str : string)
    (current_time : float) : option (Blocker * bool) :=
  let '(history, ph) := dd_get [] (press_history self) key_str in
  if bool_decide (history = []) then
    Some ({| press_history := <[key_str := history ++ [current_time]]> ph;
             last_release_time := last_release_time self;
             blocked_count := blocked_count self;
             history_size := history_size self |}, false)
  else
    newest ← py_index history (-1);
    let time_since_last := PrimFloat.sub current_time newest in
    if PrimFloat.ltb time_since_last (float_of_int 20) then
      Some (count_block self key_str ph, true)
    else if 3 <=? Z.of_nat (length history) then
      intervals ← mapM (fun i =>
                          a ← py_index history i;
                          b ← py_index history (i - 1);
                          Some (PrimFloat.sub a b)) [-2; -1];
      if Z.of_nat (length intervals) =? 0 then None
      else
        let avg_interval :=
          PrimFloat.div (py_sum intervals)
                        (float_of_int (Z.of_nat (length intervals))) in
        if PrimFloat.ltb time_since_last (float_of_int 40)
           && PrimFloat.ltb (float_of_int 20)
                (PrimFloat.abs (PrimFloat.sub time_since_last avg_interval))
        then Some (count_block self key_str ph, true)
        else Some (update_history self key_str history current_time ph, false)
    else Some (update_history self key_str history current_time ph, false).

End PatternBased.

(** ** Vocabulary of the statements *)

(** The shape both C++ functions share: [KeyState& state = keyStates[vkCode]]
    and then a body that works on [state] alone. *)
Definition on_entry (body : KeyState -> bool -> Z -> KeyState * bool)
    (keyStates : KeyStates) (vkCode : N) (isKeyDown : bool) (currentTime : Z)
  : KeyStates * bool :=
  let '(state, block) := body (entry keyStates vkCode) isKeyDown currentTime in
  (<[vkCode := state]> keyStates, block).

Definition press (vkCode : N) (t : Z) : Event := mkEvent vkCode true t.
Definition release (vkCode : N) (t : Z) : Event := mkEvent vkCode false t.

(** The presses at [t0 + 1], [t0 + 2], ..., [t0 + k]. *)
Definition burst (vkCode : N) (t0 : Z) (k : nat) : list Event :=
  map (fun i => press vkCode (t0 + Z.of_nat i)) (seq 1 k).

(** The verdicts given to the events of one key, in order. *)
Definition verdicts_for (vkCode : N) (events : list Event) (blocks : list bool)
  : list bool :=
  snd <$> filter (fun p => ev_vkCode (fst p) = vkCode) (zip events blocks).

(** The events of one key, in order. *)
Definition events_of (vkCode : N) (events : list Event) : list Event :=
  filter (fun e => ev_vkCode e = vkCode) events.

(** What one key of the Python adaptive blocker owns: its slot in each of
    the four dictionaries. *)
Definition adaptive_slot (self : Adaptive.Blocker) (key_str : string)
  : option float * option float * option bool * option Z :=
  (Adaptive.last_press_time self !! key_str,
   Adaptive.last_release_time self !! key_str,
   Adaptive.in_repeat_mode self !! key_str,
   Adaptive.blocked_count self !! key_str).

(** The rule of the pattern-based classifier in the words of its
    description, on the history of accepted presses (oldest first) and the
    time of the new press.  The gap is measured from the last recorded
    press; the average is taken over the last two intervals between
    recorded presses. *)
Definition pattern_gap (history : list float) (now : float) : option float :=
  match reverse history with
  | [] => None
  | newest :: _ => Some (PrimFloat.sub now newest)
  end.

Definition pattern_average (history : list float) : option float :=
  match reverse history with
  | h1 :: h2 :: h3 :: _ =>
      Some (PrimFloat.div
              (PrimFloat.add (PrimFloat.add (float_of_int 0) (PrimFloat.sub h2 h3))
                             (PrimFloat.sub h1 h2))
              (float_of_int 2))
  | _ => None
  end.

Definition pattern_rule (history : list float) (now : float) : bool :=
  match pattern_gap history now with
  | None => false
  | Some gap =>
      PrimFloat.ltb gap (float_of_int 20)
      || match pattern_average history with
         | Some avg =>
             PrimFloat.ltb gap (float_of_int 40)
             && PrimFloat.ltb (float_of_int 20)
                  (PrimFloat.abs (PrimFloat.sub gap avg))
         | None => false
         end
  end.

(** The history the pattern-based blocker holds for a key. *)
Definition history_of (self : PatternBased.Blocker) (key_str : string)
  : list float :=
  default [] (PatternBased.press_history self !! key_str).

(** The record of the key after one call. *)
Definition state_after
    (ShouldBlockKey : KeyStates -> N -> bool -> Z -> KeyStates * bool)
    (keyStates : KeyStates) (vkCode : N) (isKeyDown : bool) (currentTime : Z)
  : KeyState :=
  entry (fst (ShouldBlockKey keyStates vkCode isKeyDown currentTime)) vkCode.

(** What every record built from clock readings satisfies: the stored times
    are clock readings, and a key in repeat mode has a recorded press. *)
Definition well_formed (s : KeyState) : Prop :=
  clock_reading (lastPressTime s) /\
  clock_reading (lastReleaseTime s) /\
  (inRepeatMode s = true -> lastPressTime s <> 0).

(** Events whose times are clock readings. *)
Definition clock_events (events : list Event) : Prop :=
  Forall (fun e => clock_reading (ev_time e)) events.

(** ** The hook procedures

    [LowLevelKeyboardProc] of the two hook variants.  The constants come
    from [windows.h]; the procedures take them as a record, [windows_h]
    holds their values. *)

Record WinConstants : Type := mkWinConstants {
  HC_ACTION : Z;
  WM_KEYDOWN : Z;
  WM_SYSKEYDOWN : Z;
  VK_ESCAPE : N
}.

Definition windows_h : WinConstants :=
  {| HC_ACTION := 0; WM_KEYDOWN := 256; WM_SYSKEYDOWN := 260; VK_ESCAPE := 27 |}.

(** What the procedure returns: [1] (the key is swallowed) or the result of
    [CallNextHookEx] (the key goes on). *)
Inductive HookReturn : Type := Swallowed | Forwarded.

Module BaselineHook.

(** [vkCode] is [pKbdStruct->vkCode]. *)
Definition LowLevelKeyboardProc (W : WinConstants) (keyStates : KeyStates)
    (nCode wParam : Z) (vkCode : N) (currentTime : Z)
  : KeyStates * HookReturn :=
  if nCode =? HC_ACTION W then
    let isKeyDown := (wParam =? WM_KEYDOWN W) || (wParam =? WM_SYSKEYDOWN W) in
    let '(keyStates, block) :=
      Baseline.ShouldBlockKey keyStates vkCode isKeyDown currentTime in
    if block then (keyStates, Swallowed) else (keyStates, Forwarded)
  else (keyStates, Forwarded).

End BaselineHook.

Module FullHook.

(** The third component tells whether [PostQuitMessage] was called. *)
Definition LowLevelKeyboardProc (W : WinConstants) (keyStates : KeyStates)
    (nCode wParam : Z) (vkCode : N) (currentTime : Z)
  : KeyStates * HookReturn * bool :=
  if nCode =? HC_ACTION W then
    if bool_decide (vkCode = VK_ESCAPE W) && (wParam =? WM_KEYDOWN W) then
      (keyStates, Forwarded, true)
    else
      let isKeyDown := (wParam =? WM_KEYDOWN W) || (wParam =? WM_SYSKEYDOWN W) in
      let '(keyStates, block) :=
        Full.ShouldBlockKey keyStates vkCode isKeyDown currentTime in
      if block then (keyStates, Swallowed, false)
      else (keyStates, Forwarded, false)
  else (keyStates, Forwarded, false).

End FullHook.

(** ** The raw-input variant

    The keyboard branch of [WindowProc]: [key] and [flags] are
    [raw->data.keyboard.VKey] and [.Flags], [now] is [GetTickCount()], a
    [DWORD]; [RI_KEY_BREAK] is the flag of [windows.h].  The verdict [true]
    is the early [return 0]. *)

Module RawInput.

Definition CHATTER_THRESHOLD_MS : Z := 100.

(** Subtraction of [DWORD]s. *)
Definition dword_sub (a b : Z) : Z := (a - b) mod 2 ^ 32.

Definition on_keyboard (RI_KEY_BREAK : Z) (lastPressTime : gmap N Z)
    (key : N) (flags : Z) (now : Z) : gmap N Z * bool :=
  if Z.land flags RI_KEY_BREAK =? 0 then
    match lastPressTime !! key with
    | Some last =>
        if dword_sub now last <? CHATTER_THRESHOLD_MS
        then (lastPressTime, true)
        else (<[key := now]> lastPressTime, false)
    | None => (<[key := now]> lastPressTime, false)
    end
  else (lastPressTime, false).

(** Key presses one after the other. *)
Fixpoint presses (RI_KEY_BREAK : Z) (lastPressTime : gmap N Z) (key : N)
    (ticks : list Z) : gmap N Z * list bool :=
  match ticks with
  | [] => (lastPressTime, [])
  | now :: rest =>
      let '(m1, b) := on_keyboard RI_KEY_BREAK lastPressTime key 0 now in
      let '(m2, bs) := presses RI_KEY_BREAK m1 key rest in
      (m2, b :: bs)
  end.

End RawInput.

(** A [DWORD]. *)
Definition dword (z : Z) : Prop := 0 <= z < 2 ^ 32.

(** ** The listener of the pattern-based blocker *)

Inductive PyEvent : Type :=
| PyPress (key_str : string) (now : float)
| PyRelease (key_str : string) (is_esc : bool) (now : float).

Module PatternListener.

(** [on_press]: the verdict is dropped, the method returns [None]. *)
Definition on_press (self : PatternBased.Blocker) (key_str : string)
    (current_time : float) : option (PatternBased.Blocker * option bool) :=
  r ← PatternBased.should_block_key self key_str current_time;
  Some (fst r, None).

(** [on_release]; [is_esc] is the test [key == keyboard.Key.esc]. *)
Definition on_release (self : PatternBased.Blocker) (key_str : string)
    (is_esc : bool) (current_time : float)
  : PatternBased.Blocker * option bool :=
  ({| PatternBased.press_history := PatternBased.press_history self;
      PatternBased.last_release_time :=
        <[key_str := current_time]> (PatternBased.last_release_time self);
      PatternBased.blocked_count := PatternBased.blocked_count self;
      PatternBased.history_size := PatternBased.history_size self |},
   if is_esc then Some false else None).

(** The listener: it hands each event to its callback and stops when a
    callback returns [False].  [None] stands for an exception. *)
Fixpoint listen (self : PatternBased.Blocker) (events : list PyEvent)
  : option PatternBased.Blocker :=
  match events with
  | [] => Some self
  | PyPress key_str now :: rest =>
      r ← on_press self key_str now;
      if bool_decide (snd r = Some false) then Some (fst r)
      else listen (fst r) rest
  | PyRelease key_str is_esc now :: rest =>
      let r := on_release self key_str is_esc now in
      if bool_decide (snd r = Some false) then Some (fst r)
      else listen (fst r) rest
  end.

End PatternListener.

(** The number of blocked events of one key in a run. *)
Definition blocked_of (vkCode : N) (events : list Event) (blocks : list bool)
  : Z :=
  Z.of_nat (length (filter (fun b : bool => b = true)
                      (verdicts_for vkCode events blocks))).

(** Two event sequences that differ at most in the times of their
    releases. *)
Definition same_but_release_times (evs1 evs2 : list Event) : Prop :=
  Forall2 (fun e1 e2 =>
             ev_vkCode e1 = ev_vkCode e2 /\
             ev_isKeyDown e1 = ev_isKeyDown e2 /\
             (ev_isKeyDown e1 = true -> ev_time e1 = ev_time e2))
          evs1 evs2.

(** Two records with the same press time and mode. *)
Definition same_press_state (s1 s2 : KeyState) : Prop :=
  lastPressTime s1 = lastPressTime s2 /\ inRepeatMode s1 = inRepeatMode s2.

(** The histories stay within the size the blocker was built with. *)
Definition histories_bounded (self : PatternBased.Blocker) : Prop :=
  1 <= PatternBased.history_size self /\
  forall k, Z.of_nat (length (history_of self k)) <= PatternBased.history_size self.



(** ** Machine arithmetic *)

Lemma int64_wrap_id (z : Z) :
  Int64.min_signed <= z <= Int64.max_signed -> Int64.wrap z = z.
Proof.
  unfold Int64.wrap, Int64.modulus, Int64.min_signed, Int64.max_signed.
  intros H. rewrite Z.mod_small; lia.
Qed.

Lemma int64_sub_offset (t0 d : Z) :
  Int64.min_signed <= d <= Int64.max_signed -> Int64.sub (t0 + d) t0 = d.
Proof.
  intros H. unfold Int64.sub. replace (t0 + d - t0) with d by lia.
  now apply int64_wrap_id.
Qed.

Lemma int64_sub_clock (a b : Z) :
  clock_reading a -> clock_reading b -> Int64.sub a b = a - b.
Proof.
  unfold clock_reading, Int64.max_signed. intros Ha Hb.
  apply int64_wrap_id. unfold Int64.min_signed, Int64.max_signed. lia.
Qed.

Lemma int32_incr_succ (n : Z) :
  Int32.min_signed <= n < Int32.max_signed -> Int32.incr n = n + 1.
Proof.
  unfold Int32.incr, Int32.wrap, Int32.modulus, Int32.min_signed, Int32.max_signed.
  intros H. rewrite Z.mod_small; lia.
Qed.

(** ** The table and the referenced entry *)

Lemma entry_insert (keyStates : KeyStates) (vkCode : N) (s : KeyState) :
  entry (<[vkCode := s]> keyStates) vkCode = s.
Proof. unfold entry. now rewrite lookup_insert_eq. Qed.

Lemma entry_insert_ne (keyStates : KeyStates) (a b : N) (s : KeyState) :
  a <> b -> entry (<[a := s]> keyStates) b = entry keyStates b.
Proof. intros H. unfold entry. now rewrite lookup_insert_ne. Qed.

Lemma entry_empty (vkCode : N) : entry ∅ vkCode = KeyState_default.
Proof. reflexivity. Qed.

Lemma baseline_on_entry : Baseline.ShouldBlockKey = on_entry Baseline.classify.
Proof. reflexivity. Qed.

Lemma full_on_entry : Full.ShouldBlockKey = on_entry Full.classify.
Proof. reflexivity. Qed.

Section OnEntry.
Variable body : KeyState -> bool -> Z -> KeyState * bool.

Lemma on_entry_verdict ks vk d t :
  snd (on_entry body ks vk d t) = snd (body (entry ks vk) d t).
Proof. unfold on_entry. now destruct (body (entry ks vk) d t). Qed.

Lemma on_entry_table ks vk d t :
  fst (on_entry body ks vk d t) = <[vk := fst (body (entry ks vk) d t)]> ks.
Proof. unfold on_entry. now destruct (body (entry ks vk) d t). Qed.

Lemma on_entry_state ks vk d t :
  entry (fst (on_entry body ks vk d t)) vk = fst (body (entry ks vk) d t).
Proof. rewrite on_entry_table. apply entry_insert. Qed.

Lemma on_entry_frame ks a b d t :
  a <> b -> fst (on_entry body ks a d t) !! b = ks !! b.
Proof. intros H. rewrite on_entry_table. now apply lookup_insert_ne. Qed.
End OnEntry.

(** Rewrites a call on the table into the body applied to the key's entry. *)
Ltac to_body :=
  unfold state_after;
  rewrite ?baseline_on_entry, ?full_on_entry,
          ?on_entry_verdict, ?on_entry_state.

(** ** One call on one record *)

Lemma baseline_release (s : KeyState) (t : Z) :
  Baseline.classify s false t =
  ({| lastPressTime := lastPressTime s; lastReleaseTime := t;
      inRepeatMode := false; blockedCount := blockedCount s |}, false).
Proof. reflexivity. Qed.

Lemma full_release (s : KeyState) (t : Z) :
  Full.classify s false t =
  ({| lastPressTime := lastPressTime s; lastReleaseTime := t;
      inRepeatMode := false; blockedCount := blockedCount s |}, false).
Proof. reflexivity. Qed.

Lemma baseline_first_press (s : KeyState) (t : Z) :
  lastPressTime s = 0 ->
  Baseline.classify s true t = (set_lastPressTime t s, false).
Proof. intros H. unfold Baseline.classify. now rewrite H. Qed.

Lemma full_first_press (s : KeyState) (t : Z) :
  lastPressTime s = 0 ->
  Full.classify s true t = (set_lastPressTime t s, false).
Proof. intros H. unfold Full.classify. now rewrite H. Qed.

(** In the initial phase the verdict of the baseline is the strict test of
    the elapsed time against the initial threshold, and the mode flag is the
    strict test against the transition delay; both use the press time the
    record held on entry. *)
Lemma baseline_initial_phase (s : KeyState) (t : Z) :
  lastPressTime s <> 0 -> inRepeatMode s = false ->
  Baseline.classify s true t =
  (let dt := Int64.sub t (lastPressTime s) in
   if dt <? Baseline.CHATTER_THRESHOLD_MS then (incr_blockedCount s, true)
   else (set_lastPressTime t
           (if dt >? Baseline.REPEAT_TRANSITION_DELAY_MS
            then set_inRepeatMode true s else s), false)).
Proof.
  intros Hp Hr. unfold Baseline.classify.
  destruct (Z.eqb_spec (lastPressTime s) 0) as [|_]; [contradiction|].
  rewrite Hr. cbv zeta.
  unfold Baseline.CHATTER_THRESHOLD_MS, Baseline.REPEAT_TRANSITION_DELAY_MS.
  set (dt := Int64.sub t (lastPressTime s)).
  rewrite Z.gtb_ltb.
  destruct (Z.ltb_spec 150 dt), (Z.ltb_spec dt 85); try reflexivity; lia.
Qed.

Lemma baseline_repeat_phase (s : KeyState) (t : Z) :
  lastPressTime s <> 0 -> inRepeatMode s = true ->
  Baseline.classify s true t =
  (if Int64.sub t (lastPressTime s) <? Baseline.REPEAT_CHATTER_THRESHOLD_MS
   then (incr_blockedCount s, true) else (set_lastPressTime t s, false)).
Proof.
  intros Hp Hr. unfold Baseline.classify.
  destruct (Z.eqb_spec (lastPressTime s) 0) as [|_]; [contradiction|].
  now rewrite Hr.
Qed.

Lemma full_override (s : KeyState) (t : Z) :
  lastPressTime s <> 0 ->
  lastReleaseTime s > lastPressTime s ->
  Int64.sub t (lastReleaseTime s) >= Full.MIN_RELEASE_DURATION_MS ->
  Full.classify s true t =
  (set_inRepeatMode false (set_lastPressTime t s), false).
Proof.
  intros Hp Hr Hd. unfold Full.classify.
  destruct (Z.eqb_spec (lastPressTime s) 0) as [|_]; [contradiction|].
  cbv zeta. rewrite Z.gtb_ltb, Z.geb_leb.
  destruct (Z.ltb_spec (lastPressTime s) (lastReleaseTime s)); [|lia].
  destruct (Z.leb_spec Full.MIN_RELEASE_DURATION_MS
              (Int64.sub t (lastReleaseTime s))); [reflexivity|lia].
Qed.

Lemma full_initial_phase (s : KeyState) (t : Z) :
  lastPressTime s <> 0 -> inRepeatMode s = false ->
  ~ (lastReleaseTime s > lastPressTime s /\
     Int64.sub t (lastReleaseTime s) >= Full.MIN_RELEASE_DURATION_MS) ->
  Full.classify s true t =
  (let dt := Int64.sub t (lastPressTime s) in
   if dt <? Full.INITIAL_CHATTER_THRESHOLD_MS then (incr_blockedCount s, true)
   else (set_lastPressTime t
           (if dt >? Full.REPEAT_TRANSITION_DELAY_MS
            then set_inRepeatMode true s else s), false)).
Proof.
  intros Hp Hr Hno. unfold Full.classify.
  destruct (Z.eqb_spec (lastPressTime s) 0) as [|_]; [contradiction|].
  cbv zeta. rewrite Z.gtb_ltb, Z.geb_leb.
  destruct (Z.ltb_spec (lastPressTime s) (lastReleaseTime s));
    destruct (Z.leb_spec Full.MIN_RELEASE_DURATION_MS
                (Int64.sub t (lastReleaseTime s)));
    cbn [andb]; try (exfalso; apply Hno; lia);
    rewrite Hr;
    unfold Full.INITIAL_CHATTER_THRESHOLD_MS, Full.REPEAT_TRANSITION_DELAY_MS;
    set (dt := Int64.sub t (lastPressTime s));
    rewrite Z.gtb_ltb;
    destruct (Z.ltb_spec 200 dt), (Z.ltb_spec dt 81); try reflexivity; lia.
Qed.

Lemma full_repeat_phase (s : KeyState) (t : Z) :
  lastPressTime s <> 0 -> inRepeatMode s = true ->
  ~ (lastReleaseTime s > lastPressTime s /\
     Int64.sub t (lastReleaseTime s) >= Full.MIN_RELEASE_DURATION_MS) ->
  Full.classify s true t =
  (if Int64.sub t (lastPressTime s) <? Full.REPEAT_CHATTER_THRESHOLD_MS
   then (incr_blockedCount s, true) else (set_lastPressTime t s, false)).
Proof.
  intros Hp Hr Hno. unfold Full.classify.
  destruct (Z.eqb_spec (lastPressTime s) 0) as [|_]; [contradiction|].
  cbv zeta. rewrite Z.gtb_ltb, Z.geb_leb.
  destruct (Z.ltb_spec (lastPressTime s) (lastReleaseTime s));
    destruct (Z.leb_spec Full.MIN_RELEASE_DURATION_MS
                (Int64.sub t (lastReleaseTime s)));
    cbn [andb]; try (exfalso; apply Hno; lia);
    now rewrite Hr.
Qed.

(** ** Sequences of calls *)

Lemma run_cons f (ks : KeyStates) (e : Event) (rest : list Event) :
  run f ks (e :: rest) =
  (fst (run f (fst (f ks (ev_vkCode e) (ev_isKeyDown e) (ev_time e))) rest),
   snd (f ks (ev_vkCode e) (ev_isKeyDown e) (ev_time e))
   :: snd (run f (fst (f ks (ev_vkCode e) (ev_isKeyDown e) (ev_time e))) rest)).
Proof.
  cbn [run].
  destruct (f ks (ev_vkCode e) (ev_isKeyDown e) (ev_time e)) as [ks1 b].
  cbn [fst snd]. now destruct (run f ks1 rest).
Qed.

Lemma run_app f (ks : KeyStates) (evs1 evs2 : list Event) :
  run f ks (evs1 ++ evs2) =
  (fst (run f (fst (run f ks evs1)) evs2),
   snd (run f ks evs1) ++ snd (run f (fst (run f ks evs1)) evs2)).
Proof.
  revert ks. induction evs1 as [|e evs1 IH]; intros ks.
  - cbn [app run fst snd]. now destruct (run f ks evs2).
  - rewrite <- app_comm_cons, !run_cons. cbn [fst snd]. now rewrite IH.
Qed.

Lemma run_length f (ks : KeyStates) (evs : list Event) :
  length (snd (run f ks evs)) = length evs.
Proof.
  revert ks. induction evs as [|e evs IH]; intros ks; [reflexivity|].
  rewrite run_cons. cbn [snd length]. now rewrite IH.
Qed.

(** ** Records built from clock readings *)

Ltac bool_to_prop :=
  repeat match goal with
         | H : (_ =? _) = true |- _ => apply Z.eqb_eq in H
         | H : (_ =? _) = false |- _ => apply Z.eqb_neq in H
         | H : (_ <? _) = true |- _ => apply Z.ltb_lt in H
         | H : (_ <? _) = false |- _ => apply Z.ltb_ge in H
         | H : (_ <=? _) = true |- _ => apply Z.leb_le in H
         | H : (_ <=? _) = false |- _ => apply Z.leb_gt in H
         | H : (_ && _) = true |- _ => apply andb_true_iff in H; destruct H
         | H : (_ && _) = false |- _ => apply andb_false_iff in H
         end.

Ltac split_ifs :=
  repeat match goal with
         | |- context [if ?b then _ else _] => destruct b eqn:?; cbn
         end.

Lemma well_formed_default : well_formed KeyState_default.
Proof. unfold well_formed, clock_reading. cbn. repeat split; (lia || discriminate). Qed.

Lemma full_classify_well_formed (s : KeyState) (d : bool) (t : Z) :
  clock_reading t -> well_formed s -> well_formed (fst (Full.classify s d t)).
Proof.
  intros Ht (Hp & Hr & Hm). destruct s as [lp lr rep bc]. cbn in *.
  unfold well_formed, Full.classify. cbn.
  rewrite !int64_sub_clock by assumption.
  unfold Full.MIN_RELEASE_DURATION_MS, Full.REPEAT_CHATTER_THRESHOLD_MS,
    Full.INITIAL_CHATTER_THRESHOLD_MS, Full.REPEAT_TRANSITION_DELAY_MS.
  rewrite ?Z.gtb_ltb, ?Z.geb_leb.
  destruct d.
  2:{ cbn. split; [assumption | split; [assumption | discriminate]]. }
  destruct rep; split_ifs; bool_to_prop; unfold clock_reading in *.
  all: repeat split; try lia; try discriminate.
  all: try (intros _; specialize (Hm eq_refl); lia).
Qed.

Lemma full_run_well_formed (events : list Event) (keyStates : KeyStates) :
  clock_events events ->
  (forall vk, well_formed (entry keyStates vk)) ->
  forall vk, well_formed (entry (fst (run Full.ShouldBlockKey keyStates events)) vk).
Proof.
  intros Hev. revert keyStates.
  induction Hev as [|e events He _ IH]; intros ks Hks vk; [apply Hks|].
  rewrite run_cons. cbn [fst]. apply IH. intros vk'.
  rewrite full_on_entry, on_entry_table.
  destruct (decide (ev_vkCode e = vk')) as [->|Hne].
  - rewrite entry_insert. now apply full_classify_well_formed.
  - rewrite entry_insert_ne by assumption. apply Hks.
Qed.

Lemma full_accept_records (s : KeyState) (t : Z) :
  snd (Full.classify s true t) = false ->
  lastPressTime (fst (Full.classify s true t)) = t.
Proof.
  unfold Full.classify. destruct s as [lp lr rep bc]. cbn.
  destruct rep; split_ifs; trivial; discriminate.
Qed.


(** ** Bursts *)

Lemma iter_incr_fields (n : nat) (s : KeyState) :
  lastPressTime (Nat.iter n incr_blockedCount s) = lastPressTime s /\
  lastReleaseTime (Nat.iter n incr_blockedCount s) = lastReleaseTime s /\
  inRepeatMode (Nat.iter n incr_blockedCount s) = inRepeatMode s.
Proof.
  induction n as [|n IH]; [repeat split|]. rewrite Nat.iter_succ. exact IH.
Qed.

Lemma iter_incr_count (n : nat) (s : KeyState) :
  0 <= blockedCount s ->
  blockedCount s + Z.of_nat n <= Int32.max_signed ->
  blockedCount (Nat.iter n incr_blockedCount s) = blockedCount s + Z.of_nat n.
Proof.
  intros Hlo. induction n as [|n IH]; intros Hhi.
  - cbn. lia.
  - rewrite Nat.iter_succ. unfold incr_blockedCount at 1. cbn [blockedCount].
    rewrite IH by lia. rewrite int32_incr_succ; [lia|].
    unfold Int32.min_signed, Int32.max_signed in *. lia.
Qed.

Section Burst.
Variable body : KeyState -> bool -> Z -> KeyState * bool.
Variables (vk : N) (t0 : Z) (s0 : KeyState) (K : nat).

Hypothesis blocked_in_window :
  forall i n : nat, (1 <= i <= K)%nat ->
    body (Nat.iter n incr_blockedCount s0) true (t0 + Z.of_nat i) =
    (incr_blockedCount (Nat.iter n incr_blockedCount s0), true).

Lemma burst_all_blocked (k : nat) (ks : KeyStates) :
  (k <= K)%nat -> entry ks vk = s0 ->
  snd (run (on_entry body) ks (burst vk t0 k)) = replicate k true /\
  entry (fst (run (on_entry body) ks (burst vk t0 k))) vk =
    Nat.iter k incr_blockedCount s0.
Proof.
  intros Hk Hs0. induction k as [|k IH].
  - cbn. split; [reflexivity | exact Hs0].
  - destruct IH as [IHv IHs]; [lia|].
    unfold burst in *. rewrite seq_S, map_app, run_app. cbn [fst snd map].
    rewrite run_cons. cbn [run fst snd press ev_vkCode ev_isKeyDown ev_time].
    rewrite on_entry_verdict, on_entry_state, IHv, IHs.
    rewrite blocked_in_window by lia.
    cbn [fst snd]. now rewrite replicate_S_end, Nat.iter_succ.
Qed.
End Burst.

(** ** Keys do not interfere *)

Lemma verdicts_for_cons_same (vk : N) (e : Event) (evs : list Event)
    (b : bool) (bs : list bool) :
  ev_vkCode e = vk ->
  verdicts_for vk (e :: evs) (b :: bs) = b :: verdicts_for vk evs bs.
Proof.
  intros H. unfold verdicts_for. cbn [zip zip_with].
  now rewrite filter_cons_True by exact H.
Qed.

Lemma verdicts_for_cons_other (vk : N) (e : Event) (evs : list Event)
    (b : bool) (bs : list bool) :
  ev_vkCode e <> vk ->
  verdicts_for vk (e :: evs) (b :: bs) = verdicts_for vk evs bs.
Proof.
  intros H. unfold verdicts_for. cbn [zip zip_with].
  now rewrite filter_cons_False by exact H.
Qed.

Section Independence.
Variable body : KeyState -> bool -> Z -> KeyState * bool.

Lemma on_entry_local (ks1 ks2 : KeyStates) (vk : N) (d : bool) (t : Z) :
  entry ks1 vk = entry ks2 vk ->
  snd (on_entry body ks1 vk d t) = snd (on_entry body ks2 vk d t) /\
  entry (fst (on_entry body ks1 vk d t)) vk =
    entry (fst (on_entry body ks2 vk d t)) vk.
Proof. intros H. rewrite !on_entry_verdict, !on_entry_state, H. now split. Qed.

Lemma on_entry_frame_entry (ks : KeyStates) (a b : N) (d : bool) (t : Z) :
  a <> b -> entry (fst (on_entry body ks a d t)) b = entry ks b.
Proof. intros H. unfold entry. now rewrite on_entry_frame. Qed.

(** The verdicts a key receives in a run are those of the run of its own
    events alone, from any table that agrees on the key's record. *)
Lemma run_projection (vk : N) (evs : list Event) :
  forall ks ks' : KeyStates,
    entry ks vk = entry ks' vk ->
    verdicts_for vk evs (snd (run (on_entry body) ks evs)) =
      snd (run (on_entry body) ks' (events_of vk evs)) /\
    entry (fst (run (on_entry body) ks evs)) vk =
      entry (fst (run (on_entry body) ks' (events_of vk evs))) vk.
Proof.
  induction evs as [|e evs IH]; intros ks ks' Hagree.
  - cbn. now split.
  - rewrite run_cons. cbn [fst snd]. unfold events_of.
    destruct (decide (ev_vkCode e = vk)) as [Heq|Hne].
    + rewrite filter_cons_True by exact Heq.
      rewrite run_cons. cbn [fst snd].
      rewrite verdicts_for_cons_same by exact Heq. rewrite Heq.
      destruct (on_entry_local ks ks' vk (ev_isKeyDown e) (ev_time e) Hagree)
        as [Hv Hs].
      destruct (IH _ _ Hs) as [IHv IHs].
      unfold events_of in IHv, IHs. rewrite Hv, IHv, IHs. now split.
    + rewrite filter_cons_False by exact Hne.
      rewrite verdicts_for_cons_other by exact Hne.
      apply IH. rewrite on_entry_frame_entry by exact Hne. exact Hagree.
Qed.

Lemma run_same_projection (vk : N) (ks : KeyStates) (evs1 evs2 : list Event) :
  events_of vk evs1 = events_of vk evs2 ->
  verdicts_for vk evs1 (snd (run (on_entry body) ks evs1)) =
    verdicts_for vk evs2 (snd (run (on_entry body) ks evs2)).
Proof.
  intros H.
  rewrite (proj1 (run_projection vk evs1 ks ks eq_refl)).
  rewrite (proj1 (run_projection vk evs2 ks ks eq_refl)).
  now rewrite H.
Qed.
End Independence.

Lemma events_of_insert (a b : N) (e : Event) (pre post : list Event) :
  ev_vkCode e = a -> a <> b ->
  events_of b (pre ++ e :: post) = events_of b (pre ++ post).
Proof.
  intros He Hab. unfold events_of. rewrite !filter_app.
  rewrite filter_cons_False by congruence. reflexivity.
Qed.

(** ** The pattern-based blocker *)

Lemma py_index_from_end {A : Type} (l : list A) (i : nat) (x : A) :
  reverse l !! i = Some x -> py_index l (- Z.of_nat (S i)) = Some x.
Proof.
  intros H. apply reverse_lookup_Some in H. destruct H as [H Hi].
  unfold py_index.
  destruct (Z.ltb_spec (- Z.of_nat (S i)) 0) as [_|]; [|lia].
  destruct (Z.leb_spec 0 (- Z.of_nat (S i) + Z.of_nat (length l))); [|lia].
  destruct (Z.ltb_spec (- Z.of_nat (S i) + Z.of_nat (length l))
              (Z.of_nat (length l))); [|lia].
  cbn [andb].
  replace (Z.to_nat (- Z.of_nat (S i) + Z.of_nat (length l)))
    with (length l - S i)%nat by lia.
  exact H.
Qed.

Lemma history_of_count_block (self : PatternBased.Blocker) (key_str : string)
    (history : list float) :
  history_of
    (PatternBased.count_block self key_str
       (<[key_str := history]> (PatternBased.press_history self))) key_str
  = history.
Proof.
  unfold history_of, PatternBased.count_block, dd_get. cbn.
  now rewrite lookup_insert_eq.
Qed.

Lemma history_of_update_history (self : PatternBased.Blocker) (key_str : string)
    (history : list float) (now : float) (ph : gmap string (list float)) :
  history_of (PatternBased.update_history self key_str history now ph) key_str
  = history ++ [now] \/
  history_of (PatternBased.update_history self key_str history now ph) key_str
  = drop 1 (history ++ [now]).
Proof.
  unfold history_of, PatternBased.update_history. cbn.
  rewrite lookup_insert_eq. cbn.
  destruct (Z.of_nat (length (history ++ [now])) >? PatternBased.history_size self);
    [right | left]; reflexivity.
Qed.

Lemma pattern_gap_defined (history : list float) (now : float) :
  is_Some (pattern_gap history now) <-> history <> [].
Proof.
  unfold pattern_gap. destruct history as [|h hs].
  - cbn. split; [intros [x H]; discriminate | congruence].
  - rewrite reverse_cons.
    destruct (reverse hs) as [|a r]; cbn; split; intros _;
      try discriminate; eexists; reflexivity.
Qed.

Lemma pattern_average_defined (history : list float) :
  is_Some (pattern_average history) <-> (3 <= length history)%nat.
Proof.
  unfold pattern_average. rewrite <- (length_reverse history).
  destruct (reverse history) as [|a [|b [|c r]]]; cbn [length]; split; intros H;
    try lia; try (destruct H as [x H]; discriminate); eexists; reflexivity.
Qed.

Lemma mapM_pair {A B : Type} (f : A -> option B) (a b : A) :
  mapM f [a; b] = x ← f a; y ← f b; Some [x; y].
Proof. cbn. destruct (f a), (f b); reflexivity. Qed.

(** ** The Python adaptive blocker *)

Lemma adaptive_press_frame (self : Adaptive.Blocker) (ka kb : string) (now : float) :
  ka <> kb ->
  adaptive_slot (fst (Adaptive.should_block_key self ka now)) kb
  = adaptive_slot self kb.
Proof.
  intros Hne. unfold Adaptive.should_block_key, dd_get, adaptive_slot.
  cbv zeta.
  destruct (default false (Adaptive.in_repeat_mode self !! ka));
    split_ifs; rewrite ?lookup_insert_ne by exact Hne; reflexivity.
Qed.

Lemma adaptive_press_local (self other : Adaptive.Blocker) (ka : string)
    (now : float) :
  adaptive_slot other ka = adaptive_slot self ka ->
  snd (Adaptive.should_block_key other ka now)
    = snd (Adaptive.should_block_key self ka now) /\
  adaptive_slot (fst (Adaptive.should_block_key other ka now)) ka
    = adaptive_slot (fst (Adaptive.should_block_key self ka now)) ka.
Proof.
  unfold adaptive_slot. intros H. injection H as H1 H2 H3 H4.
  unfold Adaptive.should_block_key, dd_get. cbv zeta.
  rewrite H1, H2, H3, H4.
  destruct (default false (Adaptive.in_repeat_mode self !! ka));
    split_ifs; rewrite ?lookup_insert_eq, ?H4; split; reflexivity.
Qed.

Lemma adaptive_release_frame (self : Adaptive.Blocker) (ka kb : string)
    (is_esc : bool) (now : float) :
  ka <> kb ->
  adaptive_slot (fst (Adaptive.on_release self ka is_esc now)) kb
  = adaptive_slot self kb.
Proof.
  intros Hne. unfold Adaptive.on_release, adaptive_slot. cbn.
  rewrite !lookup_insert_ne by exact Hne. reflexivity.
Qed.

(** ** Claims *)

(** C6. First press always passes: for a key with no recorded press
    ([lastPressTime] is the unset value, which includes a key absent from
    the table), a press at any time [t] is not blocked and [t] becomes the
    key's [lastPressTime], in the baseline and in the full variant. *)
Theorem first_press_always_passes (keyStates : KeyStates) (vkCode : N) (t : Z) :
  lastPressTime (entry keyStates vkCode) = 0 ->
  (snd (Baseline.ShouldBlockKey keyStates vkCode true t) = false /\
   lastPressTime (state_after Baseline.ShouldBlockKey keyStates vkCode true t) = t) /\
  (snd (Full.ShouldBlockKey keyStates vkCode true t) = false /\
   lastPressTime (state_after Full.ShouldBlockKey keyStates vkCode true t) = t).
Proof.
  intros H. to_body.
  rewrite (baseline_first_press _ t H), (full_first_press _ t H).
  repeat split.
Qed.

Lemma first_press_always_passes_witness :
  lastPressTime (entry ∅ 65%N) = 0 /\
  snd (Baseline.ShouldBlockKey ∅ 65%N true 1000) = false /\
  snd (Full.ShouldBlockKey ∅ 65%N true 1000) = false.
Proof.
  split; [reflexivity|].
  destruct (first_press_always_passes ∅ 65%N 1000) as [[Hb _] [Hf _]];
    [reflexivity|].
  split; assumption.
Defined.

(** C5. Release behaviour: a release of any key in any state is never
    blocked; it stores its time in [lastReleaseTime], forces [inRepeatMode]
    to false and leaves the rest of the record as it was (C++ variants).
    The Python [on_release] does the same to its dictionaries and touches
    neither the press times nor the blocked counts. *)
Theorem release_always_passes (keyStates : KeyStates) (vkCode : N) (t : Z)
    (self : Adaptive.Blocker) (key_str : string) (is_esc : bool) (now : float) :
  Baseline.ShouldBlockKey keyStates vkCode false t =
    (<[vkCode := {| lastPressTime := lastPressTime (entry keyStates vkCode);
                    lastReleaseTime := t;
                    inRepeatMode := false;
                    blockedCount := blockedCount (entry keyStates vkCode) |}]>
       keyStates, false) /\
  Full.ShouldBlockKey keyStates vkCode false t =
    (<[vkCode := {| lastPressTime := lastPressTime (entry keyStates vkCode);
                    lastReleaseTime := t;
                    inRepeatMode := false;
                    blockedCount := blockedCount (entry keyStates vkCode) |}]>
       keyStates, false) /\
  (let self' := fst (Adaptive.on_release self key_str is_esc now) in
   Adaptive.last_release_time self' !! key_str = Some now /\
   Adaptive.in_repeat_mode self' !! key_str = Some false /\
   Adaptive.last_press_time self' = Adaptive.last_press_time self /\
   Adaptive.blocked_count self' = Adaptive.blocked_count self).
Proof.
  split; [|split].
  - unfold Baseline.ShouldBlockKey. now rewrite baseline_release.
  - unfold Full.ShouldBlockKey. now rewrite full_release.
  - cbn. rewrite !lookup_insert_eq. repeat split.
Qed.

(** C10. Sentinel aliasing at timestamp 0: for a key with no recorded
    press, a press at time 0 is accepted and leaves [lastPressTime] at the
    unset value 0; the press that follows is then accepted whatever its
    time [t] is, and [t] becomes the recorded press time.  Both C++
    variants. *)
Theorem sentinel_aliasing_at_zero (keyStates : KeyStates) (vkCode : N) (t : Z) :
  lastPressTime (entry keyStates vkCode) = 0 ->
  (let ks1 := fst (Baseline.ShouldBlockKey keyStates vkCode true 0) in
   snd (Baseline.ShouldBlockKey keyStates vkCode true 0) = false /\
   lastPressTime (entry ks1 vkCode) = 0 /\
   snd (Baseline.ShouldBlockKey ks1 vkCode true t) = false /\
   lastPressTime (state_after Baseline.ShouldBlockKey ks1 vkCode true t) = t) /\
  (let ks1 := fst (Full.ShouldBlockKey keyStates vkCode true 0) in
   snd (Full.ShouldBlockKey keyStates vkCode true 0) = false /\
   lastPressTime (entry ks1 vkCode) = 0 /\
   snd (Full.ShouldBlockKey ks1 vkCode true t) = false /\
   lastPressTime (state_after Full.ShouldBlockKey ks1 vkCode true t) = t).
Proof.
  intros H. cbv zeta. to_body.
  rewrite (baseline_first_press _ 0 H), (full_first_press _ 0 H).
  cbn [fst snd].
  rewrite (baseline_first_press (set_lastPressTime 0 _) t eq_refl).
  rewrite (full_first_press (set_lastPressTime 0 _) t eq_refl).
  repeat split.
Qed.

Lemma sentinel_aliasing_at_zero_witness :
  lastPressTime (entry ∅ 65%N) = 0 /\
  snd (run Baseline.ShouldBlockKey ∅ [press 65 0; press 65 1]) = [false; false] /\
  snd (run Full.ShouldBlockKey ∅ [press 65 0; press 65 1]) = [false; false].
Proof.
  split; [reflexivity|].
  pose proof (sentinel_aliasing_at_zero ∅ 65%N 1 eq_refl) as [Hb Hf].
  cbv zeta in Hb, Hf.
  destruct Hb as (Hb1 & _ & Hb2 & _), Hf as (Hf1 & _ & Hf2 & _).
  split; cbn [run press ev_vkCode ev_isKeyDown ev_time].
  - destruct (Baseline.ShouldBlockKey ∅ 65%N true 0) as [ks1 b1].
    cbn [fst snd] in *.
    destruct (Baseline.ShouldBlockKey ks1 65%N true 1) as [ks2 b2].
    cbn [fst snd] in *. now subst.
  - destruct (Full.ShouldBlockKey ∅ 65%N true 0) as [ks1 b1].
    cbn [fst snd] in *.
    destruct (Full.ShouldBlockKey ks1 65%N true 1) as [ks2 b2].
    cbn [fst snd] in *. now subst.
Defined.

(** C4. Threshold boundary: for a key with a recorded press at [t0] that is
    not in repeat mode, the baseline (initial threshold 85) accepts a press
    at exactly [t0 + 85] and blocks a press at [t0 + 84]; for a press at any
    time the verdict is the strict comparison of the elapsed time with the
    threshold. *)
Theorem threshold_boundary (keyStates : KeyStates) (vkCode : N) (t0 : Z) :
  lastPressTime (entry keyStates vkCode) = t0 -> t0 <> 0 ->
  inRepeatMode (entry keyStates vkCode) = false ->
  snd (Baseline.ShouldBlockKey keyStates vkCode true (t0 + 85)) = false /\
  snd (Baseline.ShouldBlockKey keyStates vkCode true (t0 + 84)) = true /\
  (forall t, snd (Baseline.ShouldBlockKey keyStates vkCode true t) =
             (Int64.sub t t0 <? Baseline.CHATTER_THRESHOLD_MS)) /\
  Baseline.CHATTER_THRESHOLD_MS = 85.
Proof.
  intros Ht0 Hnz Hrep.
  assert (Hgen : forall t, snd (Baseline.ShouldBlockKey keyStates vkCode true t) =
                           (Int64.sub t t0 <? Baseline.CHATTER_THRESHOLD_MS)).
  { intros t. to_body. rewrite baseline_initial_phase by congruence.
    cbv zeta. rewrite Ht0.
    now destruct (Int64.sub t t0 <? Baseline.CHATTER_THRESHOLD_MS). }
  repeat split; [| |exact Hgen]; rewrite Hgen;
    rewrite int64_sub_offset by (vm_compute; split; discriminate);
    reflexivity.
Qed.

Lemma threshold_boundary_witness :
  let ks := fst (Baseline.ShouldBlockKey ∅ 65%N true 1000) in
  lastPressTime (entry ks 65%N) = 1000 /\ 1000 <> 0 /\
  inRepeatMode (entry ks 65%N) = false /\
  snd (Baseline.ShouldBlockKey ks 65%N true 1085) = false /\
  snd (Baseline.ShouldBlockKey ks 65%N true 1084) = true.
Proof.
  cbv zeta.
  set (ks := fst (Baseline.ShouldBlockKey ∅ 65%N true 1000)).
  assert (Hlp : lastPressTime (entry ks 65%N) = 1000) by reflexivity.
  assert (Hnz : 1000 <> 0) by discriminate.
  assert (Hrep : inRepeatMode (entry ks 65%N) = false) by reflexivity.
  split; [exact Hlp|]. split; [exact Hnz|]. split; [exact Hrep|].
  destruct (threshold_boundary ks 65%N 1000 Hlp Hnz Hrep) as (H85 & H84 & _).
  split; [exact H85 | exact H84].
Defined.

(** C2. Repeat-mode transition, baseline constants 85 / 30 / 150: after a
    recorded press at [t0], the press at [t0 + 151] is accepted and leaves
    the key in repeat mode; the press at [t0 + 151 + 20] that follows is
    blocked and the press at [t0 + 151 + 31] is accepted.  The mode test of
    the initial phase compares the delay with the time elapsed since the
    press time held on entry, not with the one the call stores. *)
Theorem repeat_mode_transition (keyStates : KeyStates) (vkCode : N) (t0 : Z) :
  lastPressTime (entry keyStates vkCode) = t0 -> 0 < t0 ->
  let ks1 := fst (Baseline.ShouldBlockKey keyStates vkCode true (t0 + 151)) in
  snd (run Baseline.ShouldBlockKey keyStates
         [press vkCode (t0 + 151); press vkCode (t0 + 151 + 20);
          press vkCode (t0 + 151 + 31)]) = [false; true; false] /\
  inRepeatMode (entry ks1 vkCode) = true /\
  lastPressTime (entry ks1 vkCode) = t0 + 151 /\
  snd (Baseline.ShouldBlockKey ks1 vkCode true (t0 + 151 + 20)) = true /\
  snd (Baseline.ShouldBlockKey ks1 vkCode true (t0 + 151 + 31)) = false /\
  (forall t,
      inRepeatMode (entry keyStates vkCode) = false ->
      inRepeatMode (state_after Baseline.ShouldBlockKey keyStates vkCode true t) =
        (Int64.sub t t0 >? Baseline.REPEAT_TRANSITION_DELAY_MS) /\
      (snd (Baseline.ShouldBlockKey keyStates vkCode true t) = false ->
       lastPressTime (state_after Baseline.ShouldBlockKey keyStates vkCode true t) = t)).
Proof.
  intros Ht0 Hpos. cbv zeta.
  set (s0 := entry keyStates vkCode) in *.
  (* the record after the press at t0 + 151 *)
  assert (H1 : exists s1,
             Baseline.classify s0 true (t0 + 151) = (s1, false) /\
             inRepeatMode s1 = true /\ lastPressTime s1 = t0 + 151 /\
             blockedCount s1 = blockedCount s0).
  { destruct (inRepeatMode s0) eqn:Hrep.
    - rewrite baseline_repeat_phase by (trivial; lia).
      rewrite Ht0, int64_sub_offset by (vm_compute; split; discriminate).
      eexists; split; [reflexivity|]. cbn. auto.
    - rewrite baseline_initial_phase by (trivial; lia).
      cbv zeta. rewrite Ht0, int64_sub_offset by (vm_compute; split; discriminate).
      eexists; split; [reflexivity|]. cbn. auto. }
  destruct H1 as (s1 & E1 & Hrep1 & Hlp1 & _).
  assert (E2 : Baseline.classify s1 true (t0 + 151 + 20) = (incr_blockedCount s1, true)).
  { rewrite baseline_repeat_phase by (trivial; lia).
    now rewrite Hlp1, int64_sub_offset by (vm_compute; split; discriminate). }
  assert (E3 : forall s, lastPressTime s = t0 + 151 -> inRepeatMode s = true ->
                         snd (Baseline.classify s true (t0 + 151 + 31)) = false).
  { intros s Hlp Hrep. rewrite baseline_repeat_phase by (trivial; lia).
    now rewrite Hlp, int64_sub_offset by (vm_compute; split; discriminate). }
  repeat split.
  - rewrite !run_cons. cbn [run snd fst press ev_vkCode ev_isKeyDown ev_time].
    to_body. fold s0. rewrite E1. cbn [fst snd]. rewrite E2. cbn [fst snd].
    now rewrite E3.
  - to_body. fold s0. now rewrite E1.
  - to_body. fold s0. now rewrite E1.
  - to_body. fold s0. rewrite E1. cbn [fst]. now rewrite E2.
  - to_body. fold s0. rewrite E1. cbn [fst]. now apply E3.
  - to_body. fold s0. rewrite baseline_initial_phase by (trivial; lia).
    cbv zeta. rewrite Ht0.
    unfold Baseline.CHATTER_THRESHOLD_MS, Baseline.REPEAT_TRANSITION_DELAY_MS.
    rewrite Z.gtb_ltb.
    destruct (Z.ltb_spec (Int64.sub t t0) 85), (Z.ltb_spec 150 (Int64.sub t t0));
      cbn; trivial; lia.
  - to_body. fold s0. rewrite baseline_initial_phase by (trivial; lia).
    cbv zeta.
    destruct (Int64.sub t (lastPressTime s0) <? Baseline.CHATTER_THRESHOLD_MS);
      cbn; [discriminate | reflexivity].
Qed.

Lemma repeat_mode_transition_witness :
  let ks := fst (Baseline.ShouldBlockKey ∅ 65%N true 1000) in
  lastPressTime (entry ks 65%N) = 1000 /\ 0 < 1000 /\
  snd (run Baseline.ShouldBlockKey ks
         [press 65 1151; press 65 1171; press 65 1182]) = [false; true; false].
Proof.
  cbv zeta. split; [reflexivity|]. split; [lia|].
  exact (proj1 (repeat_mode_transition
                  (fst (Baseline.ShouldBlockKey ∅ 65%N true 1000)) 65%N 1000
                  eq_refl eq_refl)).
Defined.

(** C3. Intentional double-tap (full variant): in every state the blocker
    reaches from the empty table on events stamped with clock readings, a
    press on a key whose last release is later than its last recorded press
    and at least [MIN_RELEASE_DURATION_MS] = 20 before the press is accepted
    without any threshold test, its time becomes [lastPressTime] and
    [inRepeatMode] is false afterwards.  Example: when a press at [t0] is
    accepted, then after a release at [t0 + 10] the press at [t0 + 30] is
    accepted although 30 is under the initial threshold. *)
Theorem intentional_double_tap (events : list Event) (vkCode : N) (t : Z) :
  clock_events events -> clock_reading t ->
  let keyStates := fst (run Full.ShouldBlockKey ∅ events) in
  lastReleaseTime (entry keyStates vkCode) > lastPressTime (entry keyStates vkCode) ->
  t - lastReleaseTime (entry keyStates vkCode) >= Full.MIN_RELEASE_DURATION_MS ->
  (snd (Full.ShouldBlockKey keyStates vkCode true t) = false /\
   lastPressTime (state_after Full.ShouldBlockKey keyStates vkCode true t) = t /\
   inRepeatMode (state_after Full.ShouldBlockKey keyStates vkCode true t) = false) /\
  Full.MIN_RELEASE_DURATION_MS = 20 /\
  (forall (ks0 : KeyStates) (t0 : Z),
      snd (Full.ShouldBlockKey ks0 vkCode true t0) = false ->
      snd (run Full.ShouldBlockKey ks0
             [press vkCode t0; release vkCode (t0 + 10); press vkCode (t0 + 30)])
      = [false; false; false] /\
      Int64.sub (t0 + 30) t0 < Full.INITIAL_CHATTER_THRESHOLD_MS).
Proof.
  intros Hev Ht ks Hrel Hgap. split; [|split; [reflexivity|]].
  - assert (Hwf : well_formed (entry ks vkCode)).
    { apply full_run_well_formed; [assumption|].
      intros vk. rewrite entry_empty. apply well_formed_default. }
    destruct Hwf as (Hp & Hr & Hm). to_body.
    destruct (Z.eq_dec (lastPressTime (entry ks vkCode)) 0) as [Hz|Hnz].
    + rewrite full_first_press by assumption. cbn. repeat split.
      destruct (inRepeatMode (entry ks vkCode)); [|reflexivity].
      now destruct (Hm eq_refl).
    + rewrite full_override; trivial.
      * cbn. repeat split.
      * rewrite int64_sub_clock by assumption. exact Hgap.
  - intros ks0 t0 Hacc. split.
    2:{ rewrite int64_sub_offset by (vm_compute; split; discriminate).
        reflexivity. }
    rewrite !run_cons. cbn [run fst snd press release ev_vkCode ev_isKeyDown ev_time].
    revert Hacc. to_body. intros Hacc. rewrite Hacc.
    pose proof (full_accept_records _ _ Hacc) as Hlp.
    set (s1 := fst (Full.classify (entry ks0 vkCode) true t0)) in *.
    rewrite full_release. cbn [fst snd]. rewrite Hlp.
    do 2 f_equal.
    destruct (Z.eq_dec t0 0) as [->|Hnz].
    + now rewrite full_first_press.
    + rewrite full_override; cbn; trivial; [lia|].
      unfold Int64.sub. replace (t0 + 30 - (t0 + 10)) with 20 by lia.
      vm_compute. discriminate.
Qed.

Lemma intentional_double_tap_witness :
  let events := [press 65 100; release 65 110] in
  let keyStates := fst (run Full.ShouldBlockKey ∅ events) in
  clock_events events /\ clock_reading 130 /\
  lastReleaseTime (entry keyStates 65%N) > lastPressTime (entry keyStates 65%N) /\
  130 - lastReleaseTime (entry keyStates 65%N) >= Full.MIN_RELEASE_DURATION_MS /\
  snd (Full.ShouldBlockKey keyStates 65%N true 130) = false.
Proof.
  cbv zeta.
  assert (Hev : clock_events [press 65 100; release 65 110]).
  { repeat constructor; cbn; vm_compute; discriminate. }
  assert (Ht : clock_reading 130) by (split; vm_compute; discriminate).
  assert (Hrel : lastReleaseTime
                   (entry (fst (run Full.ShouldBlockKey ∅
                                  [press 65 100; release 65 110])) 65%N)
                 > lastPressTime
                     (entry (fst (run Full.ShouldBlockKey ∅
                                    [press 65 100; release 65 110])) 65%N))
    by reflexivity.
  assert (Hgap : 130 - lastReleaseTime
                   (entry (fst (run Full.ShouldBlockKey ∅
                                  [press 65 100; release 65 110])) 65%N)
                 >= Full.MIN_RELEASE_DURATION_MS)
    by (vm_compute; discriminate).
  split; [exact Hev|]. split; [exact Ht|]. split; [exact Hrel|].
  split; [exact Hgap|].
  exact (proj1 (proj1 (intentional_double_tap
                         [press 65 100; release 65 110] 65%N 130
                         Hev Ht Hrel Hgap))).
Defined.

(** C1 (amended). Burst absorption in the initial phase: for a key that is
    not in repeat mode and has a recorded press at [t0], a press whose
    elapsed time is strictly under the initial threshold is blocked, counted
    in [blockedCount] and leaves [lastPressTime] at [t0]; in the full
    variant this holds when the intentional double-tap test does not apply.
    In particular the presses at [t0 + 1], ..., [t0 + k] with [k] under the
    initial threshold (in the full variant: with no release recorded after
    [t0]) are all blocked, [lastPressTime] is [t0] after each of them, and
    [blockedCount] has grown by [k]. *)
Theorem burst_absorption (keyStates : KeyStates) (vkCode : N) (t0 : Z) :
  lastPressTime (entry keyStates vkCode) = t0 -> t0 <> 0 ->
  inRepeatMode (entry keyStates vkCode) = false ->
  let s0 := entry keyStates vkCode in
  (forall t,
      Int64.sub t t0 < Baseline.CHATTER_THRESHOLD_MS ->
      snd (Baseline.ShouldBlockKey keyStates vkCode true t) = true /\
      state_after Baseline.ShouldBlockKey keyStates vkCode true t
        = incr_blockedCount s0) /\
  (forall t,
      Int64.sub t t0 < Full.INITIAL_CHATTER_THRESHOLD_MS ->
      ~ (lastReleaseTime s0 > t0 /\
         Int64.sub t (lastReleaseTime s0) >= Full.MIN_RELEASE_DURATION_MS) ->
      snd (Full.ShouldBlockKey keyStates vkCode true t) = true /\
      state_after Full.ShouldBlockKey keyStates vkCode true t
        = incr_blockedCount s0) /\
  lastPressTime (incr_blockedCount s0) = t0 /\
  (Int32.min_signed <= blockedCount s0 < Int32.max_signed ->
   blockedCount (incr_blockedCount s0) = blockedCount s0 + 1) /\
  (forall k : nat,
      Z.of_nat k < Baseline.CHATTER_THRESHOLD_MS ->
      let r := run Baseline.ShouldBlockKey keyStates (burst vkCode t0 k) in
      snd r = replicate k true /\
      lastPressTime (entry (fst r) vkCode) = t0 /\
      (0 <= blockedCount s0 ->
       blockedCount s0 + Z.of_nat k <= Int32.max_signed ->
       blockedCount (entry (fst r) vkCode) = blockedCount s0 + Z.of_nat k)) /\
  (forall k : nat,
      Z.of_nat k < Full.INITIAL_CHATTER_THRESHOLD_MS ->
      lastReleaseTime s0 <= t0 ->
      let r := run Full.ShouldBlockKey keyStates (burst vkCode t0 k) in
      snd r = replicate k true /\
      lastPressTime (entry (fst r) vkCode) = t0 /\
      (0 <= blockedCount s0 ->
       blockedCount s0 + Z.of_nat k <= Int32.max_signed ->
       blockedCount (entry (fst r) vkCode) = blockedCount s0 + Z.of_nat k)).
Proof.
  intros Ht0 Hnz Hrep s0. fold s0 in Ht0, Hrep.
  assert (Hb : forall s t, lastPressTime s = t0 -> inRepeatMode s = false ->
                 Int64.sub t t0 < Baseline.CHATTER_THRESHOLD_MS ->
                 Baseline.classify s true t = (incr_blockedCount s, true)).
  { intros s t Hlp Hr Hdt. rewrite baseline_initial_phase by congruence.
    cbv zeta. rewrite Hlp.
    destruct (Z.ltb_spec (Int64.sub t t0) Baseline.CHATTER_THRESHOLD_MS);
      [reflexivity | lia]. }
  assert (Hf : forall s t, lastPressTime s = t0 -> inRepeatMode s = false ->
                 Int64.sub t t0 < Full.INITIAL_CHATTER_THRESHOLD_MS ->
                 ~ (lastReleaseTime s > t0 /\
                    Int64.sub t (lastReleaseTime s) >= Full.MIN_RELEASE_DURATION_MS) ->
                 Full.classify s true t = (incr_blockedCount s, true)).
  { intros s t Hlp Hr Hdt Hno. rewrite full_initial_phase by congruence.
    cbv zeta. rewrite Hlp.
    destruct (Z.ltb_spec (Int64.sub t t0) Full.INITIAL_CHATTER_THRESHOLD_MS);
      [reflexivity | lia]. }
  split; [|split; [|split; [|split; [|split]]]].
  - intros t Hdt. to_body. fold s0. now rewrite Hb.
  - intros t Hdt Hno. to_body. fold s0. now rewrite Hf.
  - exact Ht0.
  - intros Hrange. cbn. now apply int32_incr_succ.
  - intros k Hk r.
    destruct (burst_all_blocked Baseline.classify vkCode t0 s0 k) with (k := k)
      (ks := keyStates) as [Hv Hs]; trivial.
    { intros i n Hi. destruct (iter_incr_fields n s0) as (Hlp & _ & Hr).
      apply Hb; [congruence | congruence |].
      rewrite int64_sub_offset; unfold Baseline.CHATTER_THRESHOLD_MS in *; [lia|].
      unfold Int64.min_signed, Int64.max_signed. lia. }
    subst r. rewrite baseline_on_entry, Hv, Hs.
    destruct (iter_incr_fields k s0) as (Hlp & _ & _).
    split; [reflexivity|]. split; [congruence|]. apply iter_incr_count.
  - intros k Hk Hlr r.
    destruct (burst_all_blocked Full.classify vkCode t0 s0 k) with (k := k)
      (ks := keyStates) as [Hv Hs]; trivial.
    { intros i n Hi. destruct (iter_incr_fields n s0) as (Hlp & Hlr' & Hr).
      apply Hf; [congruence | congruence | |].
      - rewrite int64_sub_offset; unfold Full.INITIAL_CHATTER_THRESHOLD_MS in *; [lia|].
        unfold Int64.min_signed, Int64.max_signed. lia.
      - rewrite Hlr'. lia. }
    subst r. rewrite full_on_entry, Hv, Hs.
    destruct (iter_incr_fields k s0) as (Hlp & _ & _).
    split; [reflexivity|]. split; [congruence|]. apply iter_incr_count.
Qed.

Lemma burst_absorption_witness :
  let ks := fst (Baseline.ShouldBlockKey ∅ 65%N true 1000) in
  lastPressTime (entry ks 65%N) = 1000 /\ 1000 <> 0 /\
  inRepeatMode (entry ks 65%N) = false /\
  snd (run Baseline.ShouldBlockKey ks (burst 65 1000 84)) = replicate 84 true /\
  lastPressTime (entry (fst (run Baseline.ShouldBlockKey ks (burst 65 1000 84))) 65%N)
    = 1000.
Proof.
  cbv zeta.
  set (ks := fst (Baseline.ShouldBlockKey ∅ 65%N true 1000)).
  assert (Hlp0 : lastPressTime (entry ks 65%N) = 1000) by reflexivity.
  assert (Hnz : 1000 <> 0) by discriminate.
  assert (Hrep : inRepeatMode (entry ks 65%N) = false) by reflexivity.
  split; [exact Hlp0|]. split; [exact Hnz|]. split; [exact Hrep|].
  destruct (burst_absorption ks 65%N 1000 Hlp0 Hnz Hrep)
    as (_ & _ & _ & _ & Hburst & _).
  destruct (Hburst 84%nat eq_refl) as (Hv & Hlp & _).
  split; [exact Hv | exact Hlp].
Defined.

(** C1 as stated fails.  In repeat mode the lenient threshold applies: after
    the presses at 1 and 200 the key has its last accepted press at 200,
    and the press at 250 (elapsed 50, under 85) is accepted; of the presses
    at 201, ..., 230 the last one is accepted.  In the full variant the
    press at 130 after a press at 100 and a release at 110 is accepted. *)
Lemma burst_absorption_counterexample :
  let ks := fst (run Baseline.ShouldBlockKey ∅ [press 65 1; press 65 200]) in
  snd (run Baseline.ShouldBlockKey ∅ [press 65 1; press 65 200]) = [false; false] /\
  lastPressTime (entry ks 65%N) = 200 /\
  Int64.sub 250 200 < Baseline.CHATTER_THRESHOLD_MS /\
  snd (Baseline.ShouldBlockKey ks 65%N true 250) = false /\
  lastPressTime (state_after Baseline.ShouldBlockKey ks 65%N true 250) = 250 /\
  30 < Baseline.CHATTER_THRESHOLD_MS /\
  snd (run Baseline.ShouldBlockKey ks (burst 65 200 30))
    = replicate 29 true ++ [false] /\
  snd (run Full.ShouldBlockKey ∅ [press 65 100; release 65 110; press 65 130])
    = [false; false; false] /\
  Int64.sub 130 100 < Full.INITIAL_CHATTER_THRESHOLD_MS.
Proof. cbv zeta. repeat split; vm_compute; reflexivity. Qed.

(** The body on a time earlier than the recorded press time (both clock
    readings, so the elapsed time is negative): the press is blocked and
    counted, nothing is clamped.  No run on a steady clock calls the body
    that way, see [press_times_are_in_the_past] below. *)
Lemma negative_duration_is_blocked (keyStates : KeyStates) (vkCode : N) (t : Z) :
  let s0 := entry keyStates vkCode in
  clock_reading t -> clock_reading (lastPressTime s0) ->
  t < lastPressTime s0 ->
  Int64.sub t (lastPressTime s0) < 0 /\
  (snd (Baseline.ShouldBlockKey keyStates vkCode true t) = true /\
   state_after Baseline.ShouldBlockKey keyStates vkCode true t
     = incr_blockedCount s0) /\
  (lastReleaseTime s0 <= Int64.max_signed ->
   snd (Full.ShouldBlockKey keyStates vkCode true t) = true /\
   state_after Full.ShouldBlockKey keyStates vkCode true t
     = incr_blockedCount s0).
Proof.
  intros s0 Ht Hlp Hlt.
  assert (Hdt : Int64.sub t (lastPressTime s0) = t - lastPressTime s0)
    by now apply int64_sub_clock.
  assert (Hnz : lastPressTime s0 <> 0) by (unfold clock_reading in *; lia).
  split; [lia|]. split.
  - to_body. fold s0. destruct (inRepeatMode s0) eqn:Hrep.
    + rewrite baseline_repeat_phase, Hdt by trivial.
      unfold Baseline.REPEAT_CHATTER_THRESHOLD_MS.
      destruct (Z.ltb_spec (t - lastPressTime s0) 30); [now split | lia].
    + rewrite baseline_initial_phase by trivial. cbv zeta. rewrite Hdt.
      unfold Baseline.CHATTER_THRESHOLD_MS.
      destruct (Z.ltb_spec (t - lastPressTime s0) 85); [now split | lia].
  - intros Hlr. to_body. fold s0.
    assert (Hno : ~ (lastReleaseTime s0 > lastPressTime s0 /\
                     Int64.sub t (lastReleaseTime s0) >= Full.MIN_RELEASE_DURATION_MS)).
    { intros [Hgt Hge]. unfold Int64.sub in Hge.
      rewrite int64_wrap_id in Hge;
        unfold clock_reading, Full.MIN_RELEASE_DURATION_MS,
          Int64.min_signed, Int64.max_signed in *; lia. }
    destruct (inRepeatMode s0) eqn:Hrep.
    + rewrite full_repeat_phase, Hdt by trivial.
      unfold Full.REPEAT_CHATTER_THRESHOLD_MS.
      destruct (Z.ltb_spec (t - lastPressTime s0) 15); [now split | lia].
    + rewrite full_initial_phase by trivial. cbv zeta. rewrite Hdt.
      unfold Full.INITIAL_CHATTER_THRESHOLD_MS.
      destruct (Z.ltb_spec (t - lastPressTime s0) 81); [now split | lia].
Qed.

Section SteadyClock.
Variable body : KeyState -> bool -> Z -> KeyState * bool.

Hypothesis body_press_time :
  forall s d t,
    lastPressTime (fst (body s d t)) = lastPressTime s \/
    lastPressTime (fst (body s d t)) = t.

End SteadyClock.





(** C8. Independence across keys, for distinct keys [A] and [B]: a call
    for [A] leaves the table entry of [B] as it was; its verdict and the
    record it leaves for [A] are the same in every table that holds the same
    record for [A], whatever it holds for [B]; and in any two event sequences
    with the same events for [B], the events of [B] get the same verdicts,
    in particular when an event for [A] is inserted or removed anywhere
    (both C++ variants).  In the Python adaptive blocker a press or a
    release of one key leaves the dictionary slots of every other key as
    they were, and the verdict of a press depends on the slots of its own
    key only. *)
Theorem independence_across_keys (keyStates : KeyStates) (A B : N) :
  A <> B ->
  (forall d t,
      fst (Baseline.ShouldBlockKey keyStates A d t) !! B = keyStates !! B /\
      fst (Full.ShouldBlockKey keyStates A d t) !! B = keyStates !! B) /\
  (forall (other : KeyStates) d t,
      entry other A = entry keyStates A ->
      (snd (Baseline.ShouldBlockKey other A d t)
         = snd (Baseline.ShouldBlockKey keyStates A d t) /\
       state_after Baseline.ShouldBlockKey other A d t
         = state_after Baseline.ShouldBlockKey keyStates A d t) /\
      (snd (Full.ShouldBlockKey other A d t)
         = snd (Full.ShouldBlockKey keyStates A d t) /\
       state_after Full.ShouldBlockKey other A d t
         = state_after Full.ShouldBlockKey keyStates A d t)) /\
  (forall evs1 evs2 : list Event,
      events_of B evs1 = events_of B evs2 ->
      verdicts_for B evs1 (snd (run Baseline.ShouldBlockKey keyStates evs1))
        = verdicts_for B evs2 (snd (run Baseline.ShouldBlockKey keyStates evs2)) /\
      verdicts_for B evs1 (snd (run Full.ShouldBlockKey keyStates evs1))
        = verdicts_for B evs2 (snd (run Full.ShouldBlockKey keyStates evs2))) /\
  (forall (pre post : list Event) (e : Event),
      ev_vkCode e = A ->
      verdicts_for B (pre ++ e :: post)
        (snd (run Baseline.ShouldBlockKey keyStates (pre ++ e :: post)))
        = verdicts_for B (pre ++ post)
            (snd (run Baseline.ShouldBlockKey keyStates (pre ++ post))) /\
      verdicts_for B (pre ++ e :: post)
        (snd (run Full.ShouldBlockKey keyStates (pre ++ e :: post)))
        = verdicts_for B (pre ++ post)
            (snd (run Full.ShouldBlockKey keyStates (pre ++ post)))) /\
  (forall (self other : Adaptive.Blocker) (ka kb : string) (is_esc : bool)
          (now : float),
      ka <> kb ->
      adaptive_slot (fst (Adaptive.should_block_key self ka now)) kb
        = adaptive_slot self kb /\
      adaptive_slot (fst (Adaptive.on_release self ka is_esc now)) kb
        = adaptive_slot self kb /\
      (adaptive_slot other ka = adaptive_slot self ka ->
       snd (Adaptive.should_block_key other ka now)
         = snd (Adaptive.should_block_key self ka now) /\
       adaptive_slot (fst (Adaptive.should_block_key other ka now)) ka
         = adaptive_slot (fst (Adaptive.should_block_key self ka now)) ka)).
Proof.
  intros Hab. rewrite baseline_on_entry, full_on_entry. unfold state_after.
  split; [|split; [|split; [|split]]].
  5:{ intros self other ka kb is_esc now Hne. split; [|split].
      - now apply adaptive_press_frame.
      - now apply adaptive_release_frame.
      - apply adaptive_press_local. }
  - intros d t. split; now apply on_entry_frame.
  - intros other d t Hagree. split; now apply on_entry_local.
  - intros evs1 evs2 H. split; now apply run_same_projection.
  - intros pre post e He.
    split; apply run_same_projection; now apply events_of_insert with (a := A).
Qed.

Lemma independence_across_keys_witness :
  65%N <> 66%N /\
  verdicts_for 66
    [press 66 1000; press 65 1001; release 65 1002; press 66 1010]
    (snd (run Baseline.ShouldBlockKey ∅
            [press 66 1000; press 65 1001; release 65 1002; press 66 1010]))
  = verdicts_for 66 [press 66 1000; press 66 1010]
      (snd (run Baseline.ShouldBlockKey ∅ [press 66 1000; press 66 1010])).
Proof.
  assert (Hne : 65%N <> 66%N) by discriminate.
  split; [exact Hne|].
  destruct (independence_across_keys ∅ 65 66 Hne) as (_ & _ & Hproj & _).
  exact (proj1 (Hproj
                  [press 66 1000; press 65 1001; release 65 1002; press 66 1010]
                  [press 66 1000; press 66 1010] eq_refl)).
Defined.

(** C9. The pattern-based rule: [should_block_key] always returns (it
    raises nothing), and its verdict is the rule of the description: with a
    recorded press, the press is blocked when the gap since the last
    recorded press is under 20 ms; otherwise, with at least three recorded
    presses, it is blocked exactly when the gap is under 40 ms and differs
    from the average of the last two recorded intervals by more than 20 ms;
    in every other case, and for a key without history, it passes.  A
    blocked press leaves the history as it was; a passed press becomes the
    last entry of the history (appended, the oldest entry dropped when the
    history outgrows its size). *)
Theorem pattern_based_rule (self : PatternBased.Blocker) (key_str : string)
    (now : float) :
  let history := history_of self key_str in
  exists self' : PatternBased.Blocker,
    PatternBased.should_block_key self key_str now
      = Some (self', pattern_rule history now) /\
    (pattern_rule history now = true -> history_of self' key_str = history) /\
    (pattern_rule history now = false ->
     last (history_of self' key_str) = Some now /\
     (history_of self' key_str = history ++ [now] \/
      history_of self' key_str = drop 1 (history ++ [now]))) /\
    (is_Some (pattern_gap history now) <-> history <> []) /\
    (is_Some (pattern_average history) <-> (3 <= length history)%nat).
Proof.
  intros history.
  cut (exists self' : PatternBased.Blocker,
    PatternBased.should_block_key self key_str now
      = Some (self', pattern_rule history now) /\
    (pattern_rule history now = true -> history_of self' key_str = history) /\
    (pattern_rule history now = false ->
     last (history_of self' key_str) = Some now /\
     (history_of self' key_str = history ++ [now] \/
      history_of self' key_str = drop 1 (history ++ [now])))).
  { intros (self' & H1 & H2 & H3). exists self'.
    split; [exact H1|]. split; [exact H2|]. split; [exact H3|].
    split; [apply pattern_gap_defined | apply pattern_average_defined]. }
  unfold PatternBased.should_block_key, dd_get.
  fold (history_of self key_str). fold history.
  assert (Hupd : forall ph,
             last (history_of (PatternBased.update_history self key_str history now ph)
                     key_str) = Some now /\
             (history_of (PatternBased.update_history self key_str history now ph)
                key_str = history ++ [now] \/
              history_of (PatternBased.update_history self key_str history now ph)
                key_str = drop 1 (history ++ [now])) \/ history = []).
  { intros ph. destruct history as [|h0 hs] eqn:Hh; [now right|]. left.
    destruct (history_of_update_history self key_str (h0 :: hs) now ph) as [E|E].
    - split; [|now left]. rewrite E. apply last_snoc.
    - split; [|now right]. rewrite E. cbn [app drop]. apply last_snoc. }
  unfold pattern_rule, pattern_gap, pattern_average.
  pose proof (length_reverse history) as Hlen.
  destruct (reverse history) as [|h1 rest] eqn:Hrev.
  - assert (Hnil : history = [])
      by (rewrite <- (reverse_involutive history), Hrev; reflexivity).
    rewrite Hnil. cbn [bool_decide decide_rel]. rewrite bool_decide_eq_true_2 by reflexivity.
    eexists. split; [reflexivity|]. split; [discriminate|]. intros _.
    unfold history_of. cbn. rewrite lookup_insert_eq. cbn. split; [reflexivity | now left].
  - assert (Hne : history <> []) by (intros E; rewrite E in Hrev; discriminate).
    rewrite bool_decide_eq_false_2 by exact Hne.
    assert (P1 : py_index history (-1) = Some h1)
      by (apply (py_index_from_end history 0); rewrite Hrev; reflexivity).
    rewrite P1. cbn [mbind option_bind].
    destruct (PrimFloat.ltb (PrimFloat.sub now h1) (float_of_int 20)) eqn:Hfast.
    + cbn [orb]. eexists. split; [reflexivity|]. split; [|discriminate].
      intros _. apply history_of_count_block.
    + cbn [orb]. rewrite <- Hlen.
      destruct rest as [|h2 [|h3 rest]].
      1,2: cbn [length Z.of_nat Pos.of_succ_nat Pos.succ Z.leb Z.compare Pos.compare
                Pos.compare_cont];
        eexists; (split; [reflexivity|]); (split; [discriminate|]); intros _;
        destruct (Hupd (<[key_str:=history]> (PatternBased.press_history self)))
          as [H|H]; [exact H | contradiction].
      assert (P2 : py_index history (-2) = Some h2)
        by (apply (py_index_from_end history 1); rewrite Hrev; reflexivity).
      assert (P3 : py_index history (-3) = Some h3)
        by (apply (py_index_from_end history 2); rewrite Hrev; reflexivity).
      destruct (Z.leb_spec 3 (Z.of_nat (length (h1 :: h2 :: h3 :: rest))))
        as [_|Hshort]; [|cbn [length] in Hshort; lia].
      rewrite mapM_pair. cbv beta.
      change (-2 - 1) with (-3). change (-1 - 1) with (-2).
      rewrite P1, P2, P3. cbn [mbind option_bind length Z.of_nat Pos.of_succ_nat Pos.succ Z.eqb].
      cbn [py_sum fold_left]. change (Z.of_nat 2) with 2. cbn [Z.eqb].
      match goal with
      | |- context [andb ?a ?b] => destruct (andb a b) eqn:Hirr
      end.
      * eexists. split; [reflexivity|]. split; [|discriminate].
        intros _. apply history_of_count_block.
      * eexists. split; [reflexivity|]. split; [discriminate|]. intros _.
        destruct (Hupd (<[key_str:=history]> (PatternBased.press_history self)))
          as [H|H]; [exact H | contradiction].
Qed.

Example pattern_irregular_gap_blocked :
  pattern_rule [0; 100; 200]%float 230%float = true.
Proof. vm_compute. reflexivity. Qed.

Example pattern_regular_gap_passes :
  pattern_rule [0; 30; 60]%float 90%float = false.
Proof. vm_compute. reflexivity. Qed.

Example pattern_short_history_passes :
  pattern_rule [0; 100]%float 130%float = false.
Proof. vm_compute. reflexivity. Qed.

Example pattern_fast_gap_blocked :
  pattern_rule [0]%float 19.5%float = true.
Proof. vm_compute. reflexivity. Qed.

Example pattern_code_irregular_gap_blocked :
  (r1 ← PatternBased.should_block_key PatternBased.init "a" 0%float;
   r2 ← PatternBased.should_block_key (fst r1) "a" 100%float;
   r3 ← PatternBased.should_block_key (fst r2) "a" 200%float;
   r4 ← PatternBased.should_block_key (fst r3) "a" 230%float;
   Some ([snd r1; snd r2; snd r3; snd r4], history_of (fst r4) "a"))
  = Some ([false; false; false; true], [0; 100; 200]%float).
Proof. vm_compute. reflexivity. Qed.

Example pattern_code_history_is_trimmed :
  (r1 ← PatternBased.should_block_key PatternBased.init "a" 0%float;
   r2 ← PatternBased.should_block_key (fst r1) "a" 100%float;
   r3 ← PatternBased.should_block_key (fst r2) "a" 200%float;
   r4 ← PatternBased.should_block_key (fst r3) "a" 300%float;
   r5 ← PatternBased.should_block_key (fst r4) "a" 400%float;
   r6 ← PatternBased.should_block_key (fst r5) "a" 500%float;
   Some (snd r6, history_of (fst r6) "a"))
  = Some (false, [100; 200; 300; 400; 500]%float).
Proof. vm_compute. reflexivity. Qed.

Example release_resets_repeat_mode :
  snd (run Baseline.ShouldBlockKey ∅
         [press 65 1000; press 65 1200; press 65 1240;
          release 65 1250; press 65 1290])
  = [false; false; false; false; true].
Proof. vm_compute. reflexivity. Qed.

(** ** Further properties of the two hook variants *)

Lemma baseline_classify_well_formed (s : KeyState) (d : bool) (t : Z) :
  clock_reading t -> well_formed s -> well_formed (fst (Baseline.classify s d t)).
Proof.
  intros Ht (Hp & Hr & Hm). destruct s as [lp lr rep bc]. cbn in *.
  unfold well_formed, Baseline.classify. cbn.
  rewrite ?int64_sub_clock by assumption.
  unfold Baseline.REPEAT_CHATTER_THRESHOLD_MS,
    Baseline.CHATTER_THRESHOLD_MS, Baseline.REPEAT_TRANSITION_DELAY_MS.
  rewrite ?Z.gtb_ltb.
  destruct d.
  2:{ cbn. split; [assumption | split; [assumption | discriminate]]. }
  destruct rep; split_ifs; bool_to_prop; unfold clock_reading in *.
  all: repeat split; try lia; try discriminate.
  all: try (intros _; specialize (Hm eq_refl); lia).
Qed.

Lemma baseline_run_well_formed (events : list Event) (keyStates : KeyStates) :
  clock_events events ->
  (forall vk, well_formed (entry keyStates vk)) ->
  forall vk, well_formed (entry (fst (run Baseline.ShouldBlockKey keyStates events)) vk).
Proof.
  intros Hev. revert keyStates.
  induction Hev as [|e events He _ IH]; intros ks Hks vk; [apply Hks|].
  rewrite run_cons. cbn [fst]. apply IH. intros vk'.
  rewrite baseline_on_entry, on_entry_table.
  destruct (decide (ev_vkCode e = vk')) as [->|Hne].
  - rewrite entry_insert. now apply baseline_classify_well_formed.
  - rewrite entry_insert_ne by assumption. apply Hks.
Qed.

(** X6. In every table reached from the empty one on events stamped with
    clock readings, the stored press and release times of every key are
    clock readings and a key in repeat mode has a recorded press (its
    [lastPressTime] is not the unset value).  Both hook variants. *)
Theorem reachable_records_well_formed (events : list Event) (vkCode : N) :
  clock_events events ->
  well_formed (entry (fst (run Baseline.ShouldBlockKey ∅ events)) vkCode) /\
  well_formed (entry (fst (run Full.ShouldBlockKey ∅ events)) vkCode).
Proof.
  intros Hev. split.
  - apply baseline_run_well_formed; [assumption|].
    intros vk. rewrite entry_empty. apply well_formed_default.
  - apply full_run_well_formed; [assumption|].
    intros vk. rewrite entry_empty. apply well_formed_default.
Qed.

Lemma reachable_records_well_formed_witness :
  clock_events [press 65 1000; press 65 1200; release 65 1300] /\
  well_formed
    (entry (fst (run Baseline.ShouldBlockKey ∅
                   [press 65 1000; press 65 1200; release 65 1300])) 65%N).
Proof.
  assert (Hev : clock_events [press 65 1000; press 65 1200; release 65 1300]).
  { repeat constructor; cbn; vm_compute; discriminate. }
  split; [exact Hev|].
  exact (proj1 (reachable_records_well_formed
                  [press 65 1000; press 65 1200; release 65 1300] 65%N Hev)).
Defined.

Lemma baseline_press_effects (s : KeyState) (t : Z) :
  (snd (Baseline.classify s true t) = true ->
   fst (Baseline.classify s true t) = incr_blockedCount s) /\
  (snd (Baseline.classify s true t) = false ->
   lastPressTime (fst (Baseline.classify s true t)) = t /\
   lastReleaseTime (fst (Baseline.classify s true t)) = lastReleaseTime s /\
   blockedCount (fst (Baseline.classify s true t)) = blockedCount s).
Proof.
  destruct s as [lp lr rep bc]. unfold Baseline.classify. cbn.
  unfold Baseline.REPEAT_CHATTER_THRESHOLD_MS,
    Baseline.CHATTER_THRESHOLD_MS, Baseline.REPEAT_TRANSITION_DELAY_MS.
  set (dt := Int64.sub t lp). rewrite ?Z.gtb_ltb.
  destruct rep; split_ifs; bool_to_prop; split; intros Hverdict;
    try discriminate; try reflexivity; try (repeat split; reflexivity); lia.
Qed.

Lemma full_press_effects (s : KeyState) (t : Z) :
  (snd (Full.classify s true t) = true ->
   fst (Full.classify s true t) = incr_blockedCount s) /\
  (snd (Full.classify s true t) = false ->
   lastPressTime (fst (Full.classify s true t)) = t /\
   lastReleaseTime (fst (Full.classify s true t)) = lastReleaseTime s /\
   blockedCount (fst (Full.classify s true t)) = blockedCount s).
Proof.
  destruct s as [lp lr rep bc]. unfold Full.classify. cbn.
  unfold Full.REPEAT_CHATTER_THRESHOLD_MS, Full.MIN_RELEASE_DURATION_MS,
    Full.INITIAL_CHATTER_THRESHOLD_MS, Full.REPEAT_TRANSITION_DELAY_MS.
  set (dt := Int64.sub t lp). set (dr := Int64.sub t lr).
  rewrite ?Z.gtb_ltb, ?Z.geb_leb.
  destruct rep; split_ifs; bool_to_prop; split; intros Hverdict;
    try discriminate; try reflexivity; try (repeat split; reflexivity); lia.
Qed.

(** X5. What a press does to the record, in every state of both hook
    variants: a blocked press changes nothing but [blockedCount], which it
    increments (in particular it never enters repeat mode and never moves
    the reference time); an accepted press stores its time in
    [lastPressTime] and leaves [blockedCount] and [lastReleaseTime] as they
    were. *)
Theorem press_changes_count_or_time (keyStates : KeyStates) (vkCode : N) (t : Z) :
  ((snd (Baseline.ShouldBlockKey keyStates vkCode true t) = true ->
    state_after Baseline.ShouldBlockKey keyStates vkCode true t
      = incr_blockedCount (entry keyStates vkCode)) /\
   (snd (Baseline.ShouldBlockKey keyStates vkCode true t) = false ->
    lastPressTime (state_after Baseline.ShouldBlockKey keyStates vkCode true t) = t /\
    lastReleaseTime (state_after Baseline.ShouldBlockKey keyStates vkCode true t)
      = lastReleaseTime (entry keyStates vkCode) /\
    blockedCount (state_after Baseline.ShouldBlockKey keyStates vkCode true t)
      = blockedCount (entry keyStates vkCode))) /\
  ((snd (Full.ShouldBlockKey keyStates vkCode true t) = true ->
    state_after Full.ShouldBlockKey keyStates vkCode true t
      = incr_blockedCount (entry keyStates vkCode)) /\
   (snd (Full.ShouldBlockKey keyStates vkCode true t) = false ->
    lastPressTime (state_after Full.ShouldBlockKey keyStates vkCode true t) = t /\
    lastReleaseTime (state_after Full.ShouldBlockKey keyStates vkCode true t)
      = lastReleaseTime (entry keyStates vkCode) /\
    blockedCount (state_after Full.ShouldBlockKey keyStates vkCode true t)
      = blockedCount (entry keyStates vkCode))).
Proof.
  to_body. split.
  - apply baseline_press_effects.
  - apply full_press_effects.
Qed.

Lemma blocked_of_cons_same (vk : N) (e : Event) (evs : list Event)
    (b : bool) (bs : list bool) :
  ev_vkCode e = vk ->
  blocked_of vk (e :: evs) (b :: bs)
  = (if b then 1 else 0) + blocked_of vk evs bs.
Proof.
  intros H. unfold blocked_of. rewrite verdicts_for_cons_same by exact H.
  destruct b.
  - rewrite filter_cons_True by reflexivity. cbn [length]. lia.
  - rewrite filter_cons_False by discriminate. lia.
Qed.

Lemma blocked_of_cons_other (vk : N) (e : Event) (evs : list Event)
    (b : bool) (bs : list bool) :
  ev_vkCode e <> vk ->
  blocked_of vk (e :: evs) (b :: bs) = blocked_of vk evs bs.
Proof.
  intros H. unfold blocked_of. now rewrite verdicts_for_cons_other by exact H.
Qed.

Lemma blocked_of_nonneg (vk : N) (evs : list Event) (bs : list bool) :
  0 <= blocked_of vk evs bs.
Proof. unfold blocked_of. lia. Qed.

Section Counting.
Variable body : KeyState -> bool -> Z -> KeyState * bool.

Hypothesis body_count :
  forall s d t,
    blockedCount (fst (body s d t))
    = if snd (body s d t) then Int32.incr (blockedCount s) else blockedCount s.

Lemma run_counts_blocked (vk : N) (events : list Event) :
  forall ks : KeyStates,
    0 <= blockedCount (entry ks vk) ->
    blockedCount (entry ks vk)
      + blocked_of vk events (snd (run (on_entry body) ks events))
      <= Int32.max_signed ->
    blockedCount (entry (fst (run (on_entry body) ks events)) vk)
    = blockedCount (entry ks vk)
      + blocked_of vk events (snd (run (on_entry body) ks events)).
Proof.
  induction events as [|e events IH]; intros ks Hlo Hhi.
  - cbn. unfold blocked_of. cbn. lia.
  - rewrite run_cons in *. cbn [fst snd] in *.
    destruct (decide (ev_vkCode e = vk)) as [Heq|Hne].
    + rewrite blocked_of_cons_same in * by exact Heq.
      rewrite Heq in *.
      set (ks1 := fst (on_entry body ks vk (ev_isKeyDown e) (ev_time e))) in *.
      pose proof (blocked_of_nonneg vk events (snd (run (on_entry body) ks1 events)))
        as Hnn.
      assert (Hc1 : blockedCount (entry ks1 vk)
                    = blockedCount (entry ks vk)
                      + (if snd (on_entry body ks vk (ev_isKeyDown e) (ev_time e))
                         then 1 else 0)).
      { subst ks1. rewrite on_entry_state. rewrite on_entry_verdict in *.
        rewrite body_count.
        destruct (snd (body (entry ks vk) (ev_isKeyDown e) (ev_time e))); [|lia].
        apply int32_incr_succ.
        unfold Int32.min_signed, Int32.max_signed in *. lia. }
      rewrite IH; rewrite Hc1;
        destruct (snd (on_entry body ks vk (ev_isKeyDown e) (ev_time e)));
        lia.
    + rewrite blocked_of_cons_other in * by exact Hne.
      rewrite IH; rewrite on_entry_frame_entry by exact Hne; trivial.
Qed.
End Counting.

Lemma baseline_body_count (s : KeyState) (d : bool) (t : Z) :
  blockedCount (fst (Baseline.classify s d t))
  = if snd (Baseline.classify s d t) then Int32.incr (blockedCount s)
    else blockedCount s.
Proof.
  destruct d; [|reflexivity].
  destruct (baseline_press_effects s t) as [Hb Ha].
  destruct (snd (Baseline.classify s true t)).
  - now rewrite Hb.
  - now destruct Ha as (_ & _ & ->).
Qed.

Lemma full_body_count (s : KeyState) (d : bool) (t : Z) :
  blockedCount (fst (Full.classify s d t))
  = if snd (Full.classify s d t) then Int32.incr (blockedCount s)
    else blockedCount s.
Proof.
  destruct d; [|reflexivity].
  destruct (full_press_effects s t) as [Hb Ha].
  destruct (snd (Full.classify s true t)).
  - now rewrite Hb.
  - now destruct Ha as (_ & _ & ->).
Qed.

(** X1. [blockedCount] counts the blocked presses: over any sequence of
    events, from any table, the [blockedCount] of a key grows by exactly the
    number of events of that key that were blocked, as long as the 32-bit
    counter does not overflow.  Both hook variants. *)
Theorem blocked_count_counts_blocked (keyStates : KeyStates) (vkCode : N)
    (events : list Event) :
  0 <= blockedCount (entry keyStates vkCode) ->
  (blockedCount (entry keyStates vkCode)
     + blocked_of vkCode events (snd (run Baseline.ShouldBlockKey keyStates events))
     <= Int32.max_signed ->
   blockedCount (entry (fst (run Baseline.ShouldBlockKey keyStates events)) vkCode)
   = blockedCount (entry keyStates vkCode)
     + blocked_of vkCode events (snd (run Baseline.ShouldBlockKey keyStates events))) /\
  (blockedCount (entry keyStates vkCode)
     + blocked_of vkCode events (snd (run Full.ShouldBlockKey keyStates events))
     <= Int32.max_signed ->
   blockedCount (entry (fst (run Full.ShouldBlockKey keyStates events)) vkCode)
   = blockedCount (entry keyStates vkCode)
     + blocked_of vkCode events (snd (run Full.ShouldBlockKey keyStates events))).
Proof.
  intros Hlo. rewrite baseline_on_entry, full_on_entry. split; intros Hhi.
  - apply run_counts_blocked; trivial. apply baseline_body_count.
  - apply run_counts_blocked; trivial. apply full_body_count.
Qed.

Lemma blocked_count_counts_blocked_witness :
  let events := [press 65 1000; press 65 1010; press 66 1015; press 65 1020;
                 press 65 1100] in
  0 <= blockedCount (entry ∅ 65%N) /\
  blocked_of 65 events (snd (run Baseline.ShouldBlockKey ∅ events)) = 2 /\
  blockedCount (entry (fst (run Baseline.ShouldBlockKey ∅ events)) 65%N)
  = blockedCount (entry ∅ 65%N)
    + blocked_of 65 events (snd (run Baseline.ShouldBlockKey ∅ events)).
Proof.
  cbv zeta.
  assert (Hlo : 0 <= blockedCount (entry ∅ 65%N)) by (vm_compute; discriminate).
  split; [exact Hlo|]. split; [reflexivity|].
  apply (proj1 (blocked_count_counts_blocked ∅ 65%N
                  [press 65 1000; press 65 1010; press 66 1015; press 65 1020;
                   press 65 1100] Hlo)).
  vm_compute. discriminate.
Defined.

(** X2. Accepted presses are spaced.  For a key with a recorded press, on
    clock readings: a press the baseline accepts comes at least 30 ms after
    the recorded one, and at least 85 ms after it when the key was not in
    repeat mode.  A press the full variant accepts either follows a release
    that is later than the recorded press by at least 20 ms, or comes at
    least 15 ms after the recorded press (81 ms outside repeat mode). *)
Theorem accepted_presses_are_spaced (keyStates : KeyStates) (vkCode : N) (t : Z) :
  let s := entry keyStates vkCode in
  clock_reading t -> clock_reading (lastPressTime s) -> lastPressTime s <> 0 ->
  (snd (Baseline.ShouldBlockKey keyStates vkCode true t) = false ->
   t - lastPressTime s >= Baseline.REPEAT_CHATTER_THRESHOLD_MS /\
   (inRepeatMode s = false ->
    t - lastPressTime s >= Baseline.CHATTER_THRESHOLD_MS)) /\
  (clock_reading (lastReleaseTime s) ->
   snd (Full.ShouldBlockKey keyStates vkCode true t) = false ->
   (lastReleaseTime s > lastPressTime s /\
    t - lastReleaseTime s >= Full.MIN_RELEASE_DURATION_MS) \/
   (t - lastPressTime s >= Full.REPEAT_CHATTER_THRESHOLD_MS /\
    (inRepeatMode s = false ->
     t - lastPressTime s >= Full.INITIAL_CHATTER_THRESHOLD_MS))).
Proof.
  intros s Ht Hlp Hnz. split.
  - to_body. fold s. destruct (inRepeatMode s) eqn:Hrep.
    + rewrite baseline_repeat_phase, int64_sub_clock by trivial.
      unfold Baseline.REPEAT_CHATTER_THRESHOLD_MS, Baseline.CHATTER_THRESHOLD_MS.
      destruct (Z.ltb_spec (t - lastPressTime s) 30); cbn; intros Hv;
        [discriminate|]. split; [lia | discriminate].
    + rewrite baseline_initial_phase, int64_sub_clock by trivial. cbv zeta.
      unfold Baseline.REPEAT_CHATTER_THRESHOLD_MS, Baseline.CHATTER_THRESHOLD_MS.
      destruct (Z.ltb_spec (t - lastPressTime s) 85); cbn; intros Hv;
        [discriminate|]. split; [lia | intros _; lia].
  - intros Hlr. to_body. fold s.
    destruct (Z_gt_dec (lastReleaseTime s) (lastPressTime s)) as [Hgt|Hle];
      [destruct (Z_ge_dec (t - lastReleaseTime s) Full.MIN_RELEASE_DURATION_MS)
         as [Hge|Hlt]; [intros _; left; now split|]|].
    all: assert (Hno : ~ (lastReleaseTime s > lastPressTime s /\
                          Int64.sub t (lastReleaseTime s)
                          >= Full.MIN_RELEASE_DURATION_MS))
      by (rewrite int64_sub_clock by trivial; lia).
    all: destruct (inRepeatMode s) eqn:Hrep;
      [ rewrite full_repeat_phase, int64_sub_clock by trivial
      | rewrite full_initial_phase, int64_sub_clock by trivial; cbv zeta ];
      unfold Full.REPEAT_CHATTER_THRESHOLD_MS, Full.INITIAL_CHATTER_THRESHOLD_MS.
    all: match goal with
         | |- context [?a <? ?b] => destruct (Z.ltb_spec a b)
         end; cbn; intros Hv; [discriminate|]; right;
      (split; [lia | first [discriminate | intros _; lia]]).
Qed.

Lemma accepted_presses_are_spaced_witness :
  let ks := fst (Baseline.ShouldBlockKey ∅ 65%N true 1000) in
  clock_reading 1090 /\ clock_reading (lastPressTime (entry ks 65%N)) /\
  lastPressTime (entry ks 65%N) <> 0 /\
  snd (Baseline.ShouldBlockKey ks 65%N true 1090) = false /\
  1090 - lastPressTime (entry ks 65%N) >= Baseline.REPEAT_CHATTER_THRESHOLD_MS.
Proof.
  cbv zeta.
  set (ks := fst (Baseline.ShouldBlockKey ∅ 65%N true 1000)).
  assert (Ht : clock_reading 1090) by (split; vm_compute; discriminate).
  assert (Hlp : clock_reading (lastPressTime (entry ks 65%N)))
    by (split; vm_compute; discriminate).
  assert (Hnz : lastPressTime (entry ks 65%N) <> 0) by (vm_compute; discriminate).
  assert (Hv : snd (Baseline.ShouldBlockKey ks 65%N true 1090) = false)
    by reflexivity.
  split; [exact Ht|]. split; [exact Hlp|]. split; [exact Hnz|].
  split; [exact Hv|].
  exact (proj1 (proj1 (accepted_presses_are_spaced ks 65%N 1090 Ht Hlp Hnz) Hv)).
Defined.

Lemma baseline_same_press_state (s1 s2 : KeyState) (d : bool) (t1 t2 : Z) :
  same_press_state s1 s2 -> (d = true -> t1 = t2) ->
  snd (Baseline.classify s1 d t1) = snd (Baseline.classify s2 d t2) /\
  same_press_state (fst (Baseline.classify s1 d t1))
                   (fst (Baseline.classify s2 d t2)).
Proof.
  intros [Hlp Hrep] Ht. destruct d.
  - rewrite <- (Ht eq_refl).
    destruct s1 as [lp1 lr1 rep1 bc1], s2 as [lp2 lr2 rep2 bc2].
    cbn in Hlp, Hrep. subst lp2 rep2.
    unfold Baseline.classify, same_press_state. cbn.
    destruct rep1; split_ifs; split; try split; reflexivity.
  - rewrite !baseline_release. split; [reflexivity|].
    unfold same_press_state. cbn. now split.
Qed.

(** X3. The baseline never reads a release time or a blocked count: two
    tables that hold the same press time and mode for every key give the
    same verdicts on two event sequences that differ only in the times of
    their releases.  A release acts on later verdicts by resetting the mode,
    not by when it happened. *)
Theorem baseline_ignores_release_times (ks1 ks2 : KeyStates)
    (evs1 evs2 : list Event) :
  (forall vk, same_press_state (entry ks1 vk) (entry ks2 vk)) ->
  same_but_release_times evs1 evs2 ->
  snd (run Baseline.ShouldBlockKey ks1 evs1)
  = snd (run Baseline.ShouldBlockKey ks2 evs2).
Proof.
  intros Hks Hevs. revert ks1 ks2 Hks.
  induction Hevs as [|e1 e2 evs1 evs2 (Hk & Hd & Ht) _ IH]; intros ks1 ks2 Hks;
    [reflexivity|].
  rewrite !run_cons. cbn [snd fst]. rewrite baseline_on_entry in *.
  rewrite !on_entry_verdict, !on_entry_table, <- Hk, <- Hd.
  destruct (baseline_same_press_state
              (entry ks1 (ev_vkCode e1)) (entry ks2 (ev_vkCode e1))
              (ev_isKeyDown e1) (ev_time e1) (ev_time e2)
              (Hks (ev_vkCode e1)) Ht) as [Hv Hs].
  rewrite Hv. f_equal. apply IH. intros vk.
  destruct (decide (ev_vkCode e1 = vk)) as [<-|Hne].
  - now rewrite !entry_insert.
  - rewrite !entry_insert_ne by exact Hne. apply Hks.
Qed.

Lemma baseline_ignores_release_times_witness :
  (forall vk, same_press_state (entry (∅ : KeyStates) vk) (entry (∅ : KeyStates) vk)) /\
  same_but_release_times
    [press 65 1000; release 65 1050; press 65 1070]
    [press 65 1000; release 65 1001; press 65 1070] /\
  snd (run Baseline.ShouldBlockKey ∅ [press 65 1000; release 65 1050; press 65 1070])
  = snd (run Baseline.ShouldBlockKey ∅ [press 65 1000; release 65 1001; press 65 1070]).
Proof.
  assert (Hks : forall vk, same_press_state (entry (∅ : KeyStates) vk)
                                            (entry (∅ : KeyStates) vk))
    by (intros vk; split; reflexivity).
  assert (Hevs : same_but_release_times
                   [press 65 1000; release 65 1050; press 65 1070]
                   [press 65 1000; release 65 1001; press 65 1070]).
  { repeat constructor; cbn; try reflexivity; discriminate. }
  split; [exact Hks|]. split; [exact Hevs|].
  exact (baseline_ignores_release_times ∅ ∅ _ _ Hks Hevs).
Defined.

(** X4. A release puts the key back into the initial phase.  For a key
    with a recorded press, whatever its mode: after a release, the next
    press is judged by the baseline against the initial threshold 85.  In
    the full variant it is accepted outright when the release is later than
    the recorded press and at least 20 ms old, and judged against the
    initial threshold 81 otherwise. *)
Theorem press_after_release_uses_initial_threshold (keyStates : KeyStates)
    (vkCode : N) (r t : Z) :
  let lp := lastPressTime (entry keyStates vkCode) in
  lp <> 0 ->
  snd (run Baseline.ShouldBlockKey keyStates [release vkCode r; press vkCode t])
    = [false; Int64.sub t lp <? Baseline.CHATTER_THRESHOLD_MS] /\
  (r > lp -> Int64.sub t r >= Full.MIN_RELEASE_DURATION_MS ->
   snd (run Full.ShouldBlockKey keyStates [release vkCode r; press vkCode t])
     = [false; false]) /\
  (~ (r > lp /\ Int64.sub t r >= Full.MIN_RELEASE_DURATION_MS) ->
   snd (run Full.ShouldBlockKey keyStates [release vkCode r; press vkCode t])
     = [false; Int64.sub t lp <? Full.INITIAL_CHATTER_THRESHOLD_MS]).
Proof.
  intros lp Hnz. subst lp.
  set (s := entry keyStates vkCode) in *.
  repeat split; [| intros Hgt Hge | intros Hno];
    rewrite !run_cons; cbn [run fst snd press release ev_vkCode ev_isKeyDown ev_time];
    to_body; fold s; rewrite ?baseline_release, ?full_release; cbn [fst snd];
    do 2 f_equal.
  - rewrite baseline_initial_phase by (cbn; trivial). cbv zeta. cbn.
    now destruct (Int64.sub t (lastPressTime s) <? Baseline.CHATTER_THRESHOLD_MS).
  - rewrite full_override; cbn; trivial.
  - rewrite full_initial_phase by (cbn; trivial). cbv zeta. cbn.
    now destruct (Int64.sub t (lastPressTime s) <? Full.INITIAL_CHATTER_THRESHOLD_MS).
Qed.

Lemma press_after_release_uses_initial_threshold_witness :
  let ks := fst (run Baseline.ShouldBlockKey ∅ [press 65 1000; press 65 1200]) in
  lastPressTime (entry ks 65%N) <> 0 /\
  inRepeatMode (entry ks 65%N) = true /\
  snd (run Baseline.ShouldBlockKey ks [press 65 1240]) = [false] /\
  snd (run Baseline.ShouldBlockKey ks [release 65 1210; press 65 1240])
  = [false; true].
Proof.
  cbv zeta.
  set (ks := fst (run Baseline.ShouldBlockKey ∅ [press 65 1000; press 65 1200])).
  assert (Hnz : lastPressTime (entry ks 65%N) <> 0) by (vm_compute; discriminate).
  split; [exact Hnz|]. split; [reflexivity|]. split; [reflexivity|].
  exact (proj1 (press_after_release_uses_initial_threshold ks 65%N 1210 1240 Hnz)).
Defined.

(** ** Properties of the hook procedures *)

(** X7. The hooks swallow nothing but blocked key-down messages: when
    [LowLevelKeyboardProc] returns 1, the code was [HC_ACTION], the message
    was [WM_KEYDOWN] or [WM_SYSKEYDOWN] and the classifier blocked the key
    as a press.  Every other message (key-up, any other code) is forwarded,
    and a code other than [HC_ACTION] leaves the table untouched. *)
Theorem hook_swallows_only_blocked_key_down (W : WinConstants)
    (keyStates : KeyStates) (nCode wParam : Z) (vkCode : N) (t : Z) :
  (snd (BaselineHook.LowLevelKeyboardProc W keyStates nCode wParam vkCode t)
     = Swallowed ->
   nCode = HC_ACTION W /\
   (wParam = WM_KEYDOWN W \/ wParam = WM_SYSKEYDOWN W) /\
   snd (Baseline.ShouldBlockKey keyStates vkCode true t) = true) /\
  (snd (fst (FullHook.LowLevelKeyboardProc W keyStates nCode wParam vkCode t))
     = Swallowed ->
   nCode = HC_ACTION W /\
   (wParam = WM_KEYDOWN W \/ wParam = WM_SYSKEYDOWN W) /\
   snd (Full.ShouldBlockKey keyStates vkCode true t) = true) /\
  (nCode <> HC_ACTION W ->
   BaselineHook.LowLevelKeyboardProc W keyStates nCode wParam vkCode t
     = (keyStates, Forwarded) /\
   FullHook.LowLevelKeyboardProc W keyStates nCode wParam vkCode t
     = (keyStates, Forwarded, false)).
Proof.
  unfold BaselineHook.LowLevelKeyboardProc, FullHook.LowLevelKeyboardProc.
  destruct (Z.eqb_spec nCode (HC_ACTION W)) as [Hc|Hc].
  2:{ repeat split; trivial; cbn; discriminate. }
  split; [|split; [|contradiction]].
  - destruct ((wParam =? WM_KEYDOWN W) || (wParam =? WM_SYSKEYDOWN W)) eqn:Hd.
    + destruct (Baseline.ShouldBlockKey keyStates vkCode true t) as [ks b].
      destruct b; cbn; [|discriminate]. intros _.
      apply orb_true_iff in Hd. rewrite !Z.eqb_eq in Hd. auto.
    + unfold Baseline.ShouldBlockKey. rewrite baseline_release. cbn. discriminate.
  - destruct (bool_decide (vkCode = VK_ESCAPE W) && (wParam =? WM_KEYDOWN W));
      [cbn; discriminate|].
    destruct ((wParam =? WM_KEYDOWN W) || (wParam =? WM_SYSKEYDOWN W)) eqn:Hd.
    + destruct (Full.ShouldBlockKey keyStates vkCode true t) as [ks b].
      destruct b; cbn; [|discriminate]. intros _.
      apply orb_true_iff in Hd. rewrite !Z.eqb_eq in Hd. auto.
    + unfold Full.ShouldBlockKey. rewrite full_release. cbn. discriminate.
Qed.

(** X8. The escape key in the full hook: [PostQuitMessage] is called exactly
    for a [WM_KEYDOWN] of [VK_ESCAPE] under [HC_ACTION]; that message is
    forwarded and does not reach the classifier (the table is unchanged), so
    a chattering escape key is never filtered.  Every other message under
    [HC_ACTION] goes through [ShouldBlockKey] and leaves the table it
    returns. *)
Theorem full_hook_escape (W : WinConstants) (keyStates : KeyStates)
    (nCode wParam : Z) (vkCode : N) (t : Z) :
  let r := FullHook.LowLevelKeyboardProc W keyStates nCode wParam vkCode t in
  (snd r = true <->
   nCode = HC_ACTION W /\ vkCode = VK_ESCAPE W /\ wParam = WM_KEYDOWN W) /\
  (snd r = true -> r = (keyStates, Forwarded, true)) /\
  (nCode = HC_ACTION W -> snd r = false ->
   fst (fst r)
   = fst (Full.ShouldBlockKey keyStates vkCode
            ((wParam =? WM_KEYDOWN W) || (wParam =? WM_SYSKEYDOWN W)) t)).
Proof.
  cbv zeta. unfold FullHook.LowLevelKeyboardProc.
  destruct (Z.eqb_spec nCode (HC_ACTION W)) as [Hc|Hc].
  2:{ cbn. repeat split; try discriminate; try contradiction.
      intros (H & _); contradiction. }
  destruct (bool_decide (vkCode = VK_ESCAPE W) && (wParam =? WM_KEYDOWN W)) eqn:He.
  - apply andb_true_iff in He. destruct He as [Hk Hw].
    apply bool_decide_eq_true in Hk. apply Z.eqb_eq in Hw.
    cbn. repeat split; trivial; discriminate.
  - assert (Hne : ~ (vkCode = VK_ESCAPE W /\ wParam = WM_KEYDOWN W)).
    { intros [Hk Hw]. apply andb_false_iff in He. destruct He as [He|He].
      - apply bool_decide_eq_false in He. contradiction.
      - apply Z.eqb_neq in He. contradiction. }
    destruct (Full.ShouldBlockKey keyStates vkCode
                ((wParam =? WM_KEYDOWN W) || (wParam =? WM_SYSKEYDOWN W)) t)
      as [ks b].
    destruct b; cbn; repeat split; trivial; try discriminate;
      intros (_ & Hk & Hw); exfalso; apply Hne; now split.
Qed.

(** ** Properties of the raw-input variant *)

Lemma dword_sub_offset (last d : Z) :
  dword d -> RawInput.dword_sub ((last + d) mod 2 ^ 32) last = d.
Proof.
  unfold dword, RawInput.dword_sub. intros Hd.
  rewrite Zminus_mod_idemp_l. replace (last + d - last) with d by lia.
  now apply Z.mod_small.
Qed.

Lemma raw_press_after_recorded (RI_KEY_BREAK : Z)
    (lastPressTime : gmap N Z) (key : N) (last d : Z) :
  lastPressTime !! key = Some last ->
  dword d ->
  RawInput.on_keyboard RI_KEY_BREAK lastPressTime key 0 ((last + d) mod 2 ^ 32)
  = if d <? RawInput.CHATTER_THRESHOLD_MS then (lastPressTime, true)
    else (<[key := (last + d) mod 2 ^ 32]> lastPressTime, false).
Proof.
  intros Hl Hd. unfold RawInput.on_keyboard.
  rewrite Z.land_0_l, Hl. cbn [Z.eqb]. now rewrite dword_sub_offset.
Qed.

(** X9. The elapsed time of the raw-input variant survives the wrap-around
    of the tick counter: for a key recorded at tick [last], a press that
    comes [d] ticks later ([d] under 2^32) is blocked exactly when [d] is
    under 100, also when the counter has wrapped in between; a blocked press
    leaves the table as it was and an accepted one records its tick. *)
Theorem raw_elapsed_time_survives_wraparound (RI_KEY_BREAK : Z)
    (lastPressTime : gmap N Z) (key : N) (flags last d : Z) :
  Z.land flags RI_KEY_BREAK = 0 ->
  lastPressTime !! key = Some last ->
  dword d ->
  RawInput.on_keyboard RI_KEY_BREAK lastPressTime key flags ((last + d) mod 2 ^ 32)
  = if d <? RawInput.CHATTER_THRESHOLD_MS then (lastPressTime, true)
    else (<[key := (last + d) mod 2 ^ 32]> lastPressTime, false).
Proof.
  intros Hf Hl Hd. unfold RawInput.on_keyboard.
  rewrite Hf, Hl. cbn [Z.eqb]. now rewrite dword_sub_offset.
Qed.

Lemma raw_elapsed_time_survives_wraparound_witness :
  Z.land 0 1 = 0 /\
  ({[ 65%N := 4294967290 ]} : gmap N Z) !! 65%N = Some 4294967290 /\
  dword 50 /\
  (4294967290 + 50) mod 2 ^ 32 = 44 /\
  RawInput.on_keyboard 1 {[ 65%N := 4294967290 ]} 65 0 44
  = ({[ 65%N := 4294967290 ]}, true).
Proof.
  assert (Hd : dword 50) by (unfold dword; lia).
  split; [reflexivity|]. split; [reflexivity|]. split; [exact Hd|].
  split; [reflexivity|].
  exact (raw_elapsed_time_survives_wraparound 1 {[ 65%N := 4294967290 ]} 65 0
           4294967290 50 eq_refl eq_refl Hd).
Defined.

(** X10. The raw-input variant has no unset value: the first press of a key
    that is not in the table passes at any tick, tick 0 included, and is
    recorded; the press that follows [d] ticks later is blocked exactly
    when [d] is under 100, and the table then holds the tick of the last
    press that passed. *)
Theorem raw_first_press_is_recorded (RI_KEY_BREAK : Z)
    (lastPressTime : gmap N Z) (key : N) (now d : Z) :
  lastPressTime !! key = None ->
  dword d ->
  let r := RawInput.presses RI_KEY_BREAK lastPressTime key
             [now; (now + d) mod 2 ^ 32] in
  snd r = [false; d <? RawInput.CHATTER_THRESHOLD_MS] /\
  fst r !! key
  = Some (if d <? RawInput.CHATTER_THRESHOLD_MS then now
          else (now + d) mod 2 ^ 32).
Proof.
  intros Hn Hd. cbv zeta.
  assert (E : RawInput.presses RI_KEY_BREAK lastPressTime key
                [now; (now + d) mod 2 ^ 32]
              = (if d <? RawInput.CHATTER_THRESHOLD_MS
                 then <[key := now]> lastPressTime
                 else <[key := (now + d) mod 2 ^ 32]> (<[key := now]> lastPressTime),
                 [false; d <? RawInput.CHATTER_THRESHOLD_MS])).
  { cbn [RawInput.presses].
    unfold RawInput.on_keyboard at 1. rewrite Z.land_0_l, Hn. cbn [Z.eqb].
    rewrite (raw_press_after_recorded RI_KEY_BREAK _ key now d);
      [|apply lookup_insert_eq|exact Hd].
    now destruct (d <? RawInput.CHATTER_THRESHOLD_MS). }
  rewrite E. cbn [fst snd]. split; [reflexivity|].
  destruct (d <? RawInput.CHATTER_THRESHOLD_MS); apply lookup_insert_eq.
Qed.

Lemma raw_first_press_is_recorded_witness :
  (∅ : gmap N Z) !! 65%N = None /\ dword 50 /\
  snd (RawInput.presses 1 ∅ 65 [0; 50]) = [false; true] /\
  fst (RawInput.presses 1 ∅ 65 [0; 50]) !! 65%N = Some 0.
Proof.
  assert (Hd : dword 50) by (unfold dword; lia).
  split; [reflexivity|]. split; [exact Hd|].
  exact (raw_first_press_is_recorded 1 ∅ 65 0 50 eq_refl Hd).
Defined.



(** ** The Python blockers: counters and histories *)

(** The three ways a call of the pattern-based [should_block_key] ends. *)
Lemma pattern_step_cases (self : PatternBased.Blocker) (key_str : string)
    (now : float) :
  let history := history_of self key_str in
  let ph := <[key_str := history]> (PatternBased.press_history self) in
  (history = [] /\
   PatternBased.should_block_key self key_str now
   = Some ({| PatternBased.press_history := <[key_str := [now]]> ph;
              PatternBased.last_release_time := PatternBased.last_release_time self;
              PatternBased.blocked_count := PatternBased.blocked_count self;
              PatternBased.history_size := PatternBased.history_size self |},
           false)) \/
  (history <> [] /\
   PatternBased.should_block_key self key_str now
   = Some (PatternBased.count_block self key_str ph, true)) \/
  (history <> [] /\
   PatternBased.should_block_key self key_str now
   = Some (PatternBased.update_history self key_str history now ph, false)).
Proof.
  intros history ph. subst ph.
  unfold PatternBased.should_block_key, dd_get.
  fold (history_of self key_str). fold history.
  pose proof (length_reverse history) as Hlen.
  destruct (reverse history) as [|h1 rest] eqn:Hrev.
  - left.
    assert (Hnil : history = [])
      by (rewrite <- (reverse_involutive history), Hrev; reflexivity).
    rewrite Hnil. rewrite bool_decide_eq_true_2 by reflexivity. now split.
  - right.
    assert (Hne : history <> []) by (intros E; rewrite E in Hrev; discriminate).
    rewrite bool_decide_eq_false_2 by exact Hne.
    assert (P1 : py_index history (-1) = Some h1)
      by (apply (py_index_from_end history 0); rewrite Hrev; reflexivity).
    rewrite P1. cbn [mbind option_bind].
    destruct (PrimFloat.ltb (PrimFloat.sub now h1) (float_of_int 20));
      [left; now split|].
    rewrite <- Hlen.
    destruct rest as [|h2 [|h3 rest]].
    1,2: cbn [length Z.of_nat Pos.of_succ_nat Pos.succ Z.leb Z.compare Pos.compare
              Pos.compare_cont]; right; now split.
    assert (P2 : py_index history (-2) = Some h2)
      by (apply (py_index_from_end history 1); rewrite Hrev; reflexivity).
    assert (P3 : py_index history (-3) = Some h3)
      by (apply (py_index_from_end history 2); rewrite Hrev; reflexivity).
    destruct (Z.leb_spec 3 (Z.of_nat (length (h1 :: h2 :: h3 :: rest))))
      as [_|Hshort]; [|cbn [length] in Hshort; lia].
    rewrite mapM_pair. cbv beta.
    change (-2 - 1) with (-3). change (-1 - 1) with (-2).
    rewrite P1, P2, P3.
    cbn [mbind option_bind length Z.of_nat Pos.of_succ_nat Pos.succ Z.eqb].
    match goal with
    | |- context [andb ?a ?b] => destruct (andb a b)
    end; [left | right]; now split.
Qed.

Lemma length_update_history (self : PatternBased.Blocker) (key_str : string)
    (history : list float) (now : float) (ph : gmap string (list float)) :
  Z.of_nat (length history) <= PatternBased.history_size self ->
  Z.of_nat (length (history_of
                      (PatternBased.update_history self key_str history now ph)
                      key_str))
  <= PatternBased.history_size self.
Proof.
  intros H. unfold history_of, PatternBased.update_history. cbn.
  rewrite lookup_insert_eq. cbn. rewrite Z.gtb_ltb.
  destruct (Z.ltb_spec (PatternBased.history_size self)
              (Z.of_nat (length (history ++ [now])))) as [Hgt|Hle].
  - rewrite length_drop, length_app. cbn. lia.
  - exact Hle.
Qed.

Lemma pattern_step_bounded (self : PatternBased.Blocker) (key_str : string)
    (now : float) :
  histories_bounded self ->
  exists self' b,
    PatternBased.should_block_key self key_str now = Some (self', b) /\
    PatternBased.history_size self' = PatternBased.history_size self /\
    histories_bounded self'.
Proof.
  intros [Hsize Hb].
  destruct (pattern_step_cases self key_str now) as [[Hnil E]|[[Hne E]|[Hne E]]];
    rewrite E; eexists; eexists; (split; [reflexivity|]); (split; [reflexivity|]);
    (split; [exact Hsize|]); intros k;
    match goal with
    | |- _ <= ?rhs => change rhs with (PatternBased.history_size self)
    end;
    destruct (decide (k = key_str)) as [->|Hk].
  - unfold history_of. cbn. rewrite lookup_insert_eq. cbn. lia.
  - unfold history_of. cbn. rewrite !lookup_insert_ne by congruence. apply Hb.
  - rewrite history_of_count_block. apply Hb.
  - unfold history_of, PatternBased.count_block, dd_get. cbn.
    rewrite !lookup_insert_ne by congruence. apply Hb.
  - apply length_update_history. apply Hb.
  - unfold history_of, PatternBased.update_history. cbn.
    rewrite !lookup_insert_ne by congruence. apply Hb.
Qed.

Lemma listen_bounded (events : list PyEvent) :
  forall self : PatternBased.Blocker,
    histories_bounded self ->
    exists self',
      PatternListener.listen self events = Some self' /\
      PatternBased.history_size self' = PatternBased.history_size self /\
      histories_bounded self'.
Proof.
  induction events as [|[key_str now|key_str is_esc now] events IH];
    intros self Hb.
  - exists self. split; [reflexivity|]. split; [reflexivity | exact Hb].
  - destruct (pattern_step_bounded self key_str now Hb)
      as (self1 & b & E & Hs & Hb1).
    cbn [PatternListener.listen]. unfold PatternListener.on_press.
    rewrite E. cbn [mbind option_bind fst snd].
    rewrite bool_decide_eq_false_2 by discriminate.
    destruct (IH self1 Hb1) as (self' & E' & Hs' & Hb').
    exists self'. split; [exact E'|]. split; [congruence | exact Hb'].
  - set (self1 := fst (PatternListener.on_release self key_str is_esc now)).
    assert (Hb1 : histories_bounded self1) by exact Hb.
    cbn [PatternListener.listen]. fold self1.
    destruct (bool_decide (snd (PatternListener.on_release self key_str is_esc now)
                           = Some false)).
    + exists self1. split; [reflexivity|]. split; [reflexivity | exact Hb1].
    + destruct (IH self1 Hb1) as (self' & E' & Hs' & Hb').
      exists self'. split; [exact E'|]. split; [exact Hs' | exact Hb'].
Qed.

(** X12. The pattern-based blocker never raises and keeps its histories
    short: whatever presses and releases the listener delivers to a freshly
    built blocker, every callback returns and no key ever has more than 5
    recorded press times. *)
Theorem pattern_history_is_bounded (events : list PyEvent) (key_str : string) :
  exists self' : PatternBased.Blocker,
    PatternListener.listen PatternBased.init events = Some self' /\
    (length (history_of self' key_str) <= 5)%nat.
Proof.
  destruct (listen_bounded events PatternBased.init) as (self' & E & Hs & _ & Hb).
  { split; [cbn; lia|]. intros k. unfold history_of. cbn.
    rewrite lookup_empty. cbn. lia. }
  exists self'. split; [exact E|].
  specialize (Hb key_str). rewrite Hs in Hb. cbn in Hb. lia.
Qed.

(** X13. The blocked counter of the pattern-based blocker is exact: a call
    of [should_block_key] adds one to the counter of its key when it blocks
    the press and leaves the counter alone when it passes it; the counters
    of the other keys are never touched. *)
Theorem pattern_blocked_count_is_exact (self : PatternBased.Blocker)
    (key_str : string) (now : float) :
  exists (self' : PatternBased.Blocker) (b : bool),
    PatternBased.should_block_key self key_str now = Some (self', b) /\
    default 0 (PatternBased.blocked_count self' !! key_str)
    = default 0 (PatternBased.blocked_count self !! key_str)
      + (if b then 1 else 0) /\
    (forall k, k <> key_str ->
               PatternBased.blocked_count self' !! k
               = PatternBased.blocked_count self !! k).
Proof.
  destruct (pattern_step_cases self key_str now) as [[_ E]|[[_ E]|[_ E]]];
    rewrite E; eexists; eexists; (split; [reflexivity|]).
  - cbn. split; [lia | reflexivity].
  - unfold PatternBased.count_block, dd_get. cbn.
    rewrite lookup_insert_eq. cbn. split; [reflexivity|].
    intros k Hk. now rewrite !lookup_insert_ne by congruence.
  - unfold PatternBased.update_history. cbn. split; [lia | reflexivity].
Qed.

(** X14. The Python adaptive blocker has no first-press branch: the first
    press of a key is measured against time 0.  When that elapsed time is
    over the transition delay 200 (and so not under the threshold 50), the
    press is accepted and the key is in repeat mode at once; the press that
    follows is then accepted as soon as its gap is not under the repeat
    threshold 15, also when the gap is under the initial threshold 50. *)
Theorem adaptive_first_press_enters_repeat_mode (self : Adaptive.Blocker)
    (key_str : string) (now now2 : float) :
  Adaptive.last_press_time self !! key_str = None ->
  Adaptive.in_repeat_mode self !! key_str = None ->
  PrimFloat.ltb (float_of_int Adaptive.REPEAT_TRANSITION_DELAY_MS)
                (PrimFloat.sub now 0%float) = true ->
  PrimFloat.ltb (PrimFloat.sub now 0%float)
                (float_of_int Adaptive.INITIAL_CHATTER_THRESHOLD_MS) = false ->
  let r := Adaptive.should_block_key self key_str now in
  snd r = false /\
  Adaptive.in_repeat_mode (fst r) !! key_str = Some true /\
  Adaptive.last_press_time (fst r) !! key_str = Some now /\
  (PrimFloat.ltb (PrimFloat.sub now2 now)
                 (float_of_int Adaptive.REPEAT_CHATTER_THRESHOLD_MS) = false ->
   snd (Adaptive.should_block_key (fst r) key_str now2) = false).
Proof.
  intros Hlp Hrm Hgt Hge. cbv zeta.
  assert (E : Adaptive.should_block_key self key_str now
              = ({| Adaptive.last_press_time :=
                      <[key_str := now]>
                        (<[key_str := 0%float]> (Adaptive.last_press_time self));
                    Adaptive.last_release_time :=
                      <[key_str := default 0%float
                                     (Adaptive.last_release_time self !! key_str)]>
                        (Adaptive.last_release_time self);
                    Adaptive.in_repeat_mode :=
                      <[key_str := true]>
                        (<[key_str := false]> (Adaptive.in_repeat_mode self));
                    Adaptive.blocked_count := Adaptive.blocked_count self |},
                 false)).
  { unfold Adaptive.should_block_key, dd_get. cbv zeta.
    rewrite Hlp, Hrm. cbn [default]. rewrite Hgt, Hge. reflexivity. }
  rewrite E. cbn [fst snd Adaptive.in_repeat_mode Adaptive.last_press_time].
  rewrite !lookup_insert_eq. repeat split.
  intros Hgap. unfold Adaptive.should_block_key, dd_get. cbv zeta.
  cbn [Adaptive.in_repeat_mode Adaptive.last_press_time
       Adaptive.last_release_time Adaptive.blocked_count].
  rewrite !lookup_insert_eq. cbv [default from_option id]. cbv beta iota.
  now rewrite Hgap.
Qed.

Lemma adaptive_first_press_enters_repeat_mode_witness :
  Adaptive.last_press_time Adaptive.init !! "a" = None /\
  Adaptive.in_repeat_mode Adaptive.init !! "a" = None /\
  PrimFloat.ltb (PrimFloat.sub 1020 1000)%float (float_of_int 50) = true /\
  snd (Adaptive.should_block_key
         (fst (Adaptive.should_block_key Adaptive.init "a" 1000%float))
         "a" 1020%float) = false.
Proof.
  split; [reflexivity|]. split; [reflexivity|]. split; [reflexivity|].
  exact (proj2 (proj2 (proj2
           (adaptive_first_press_enters_repeat_mode Adaptive.init "a"
              1000%float 1020%float eq_refl eq_refl eq_refl eq_refl))) eq_refl).
Defined.

(** X15. What a press does to the dictionaries of the Python adaptive
    blocker: a blocked press adds one to the blocked counter of its key and
    leaves the recorded press time of the key at its value; an accepted
    press records its time and leaves all counters as they were. *)
Theorem adaptive_press_counts_or_records (self : Adaptive.Blocker)
    (key_str : string) (now : float) :
  let r := Adaptive.should_block_key self key_str now in
  (snd r = true ->
   Adaptive.last_press_time (fst r) !! key_str
   = Some (default 0%float (Adaptive.last_press_time self !! key_str)) /\
   Adaptive.blocked_count (fst r) !! key_str
   = Some (default 0 (Adaptive.blocked_count self !! key_str) + 1)) /\
  (snd r = false ->
   Adaptive.last_press_time (fst r) !! key_str = Some now /\
   Adaptive.blocked_count (fst r) = Adaptive.blocked_count self).
Proof.
  cbv zeta. unfold Adaptive.should_block_key, dd_get. cbv zeta.
  destruct (default false (Adaptive.in_repeat_mode self !! key_str));
    split_ifs; rewrite ?lookup_insert_eq; split; intros Hv;
    try discriminate; now split.
Qed.

Lemma pattern_verdict_local (self other : PatternBased.Blocker)
    (key_str : string) (now : float) :
  history_of other key_str = history_of self key_str ->
  (snd <$> PatternBased.should_block_key other key_str now)
  = (snd <$> PatternBased.should_block_key self key_str now).
Proof.
  intros H. unfold PatternBased.should_block_key, dd_get.
  fold (history_of other key_str). fold (history_of self key_str).
  rewrite H. set (history := history_of self key_str).
  destruct (bool_decide (history = [])); [reflexivity|].
  destruct (py_index history (-1)) as [newest|]; [|reflexivity].
  cbn [mbind option_bind].
  destruct (PrimFloat.ltb (PrimFloat.sub now newest) (float_of_int 20));
    [reflexivity|].
  destruct (3 <=? Z.of_nat (length history)); [|reflexivity].
  destruct (mapM _ [-2; -1]) as [intervals|]; [|reflexivity].
  cbn [mbind option_bind].
  destruct (Z.of_nat (length intervals) =? 0); [reflexivity|].
  match goal with
  | |- context [andb ?a ?b] => destruct (andb a b)
  end; reflexivity.
Qed.

(** X16. The keys of the pattern-based blocker do not interfere: the
    verdict on a press depends on the recorded history of its own key only
    (two blockers that hold the same history for the key give the same
    verdict, or fail alike), and a press of one key leaves the history and
    the blocked counter of every other key as they were. *)
Theorem pattern_keys_are_independent (self other : PatternBased.Blocker)
    (ka kb : string) (now : float) :
  ka <> kb ->
  (history_of other ka = history_of self ka ->
   (snd <$> PatternBased.should_block_key other ka now)
   = (snd <$> PatternBased.should_block_key self ka now)) /\
  (exists (self' : PatternBased.Blocker) (b : bool),
      PatternBased.should_block_key self ka now = Some (self', b) /\
      history_of self' kb = history_of self kb /\
      PatternBased.blocked_count self' !! kb = PatternBased.blocked_count self !! kb).
Proof.
  intros Hne. split; [apply pattern_verdict_local|].
  destruct (pattern_step_cases self ka now) as [[_ E]|[[_ E]|[_ E]]];
    rewrite E; eexists; eexists; (split; [reflexivity|]);
    unfold history_of, PatternBased.count_block, PatternBased.update_history, dd_get;
    cbn; rewrite ?lookup_insert_ne by exact Hne; now split.
Qed.

Lemma pattern_keys_are_independent_witness :
  "a" <> "b" /\
  (snd <$> PatternBased.should_block_key
             (fst (PatternListener.on_release PatternBased.init "b" false 5%float))
             "a" 10%float)
  = (snd <$> PatternBased.should_block_key PatternBased.init "a" 10%float).
Proof.
  assert (Hne : "a" <> "b") by discriminate.
  split; [exact Hne|].
  exact (proj1 (pattern_keys_are_independent PatternBased.init
                  (fst (PatternListener.on_release PatternBased.init "b" false 5%float))
                  "a" "b" 10%float Hne) eq_refl).
Defined.
